(** * Deep Research Agent: the workflow of [main.py], embedded in Rocq

    The development follows [src/main.py]: the shared [AgentState], the three
    node functions ([planner_node], [research_node], [writer_node]), the
    conditional edge [manager_logic] and the graph that sequences them.

    - Python [str] values are [string]s; a character is a code point below 256.
    - The index [current_query_index] is a Python [int], hence a [Z], and
      [plan[index]] follows Python's indexing (negative indices count from the
      end, anything else out of range raises [IndexError]).
    - The language model, the search client and the text extractor are
      external services: they are oracles over an abstract world [W], threaded
      through every call, so that the same request may be answered differently
      at different times and may raise.
    - A node returns a dictionary of updates; the graph merges it into the
      state field by field, [summaries] through its reducer [operator.add].
    - Console output ([print]) is not modelled. *)

From Stdlib Require Import String Ascii List ZArith NArith Bool Lia.
Import ListNotations.
Open Scope string_scope.

(* ================================================================== *)
(** * Part I: definitions *)
(* ================================================================== *)

(** ** Python string operations used by the nodes *)

Module PyStr.

(** The newline character and the one-character string holding it. *)
Definition nl_char : ascii := "010"%char.
Definition nl : string := String nl_char EmptyString.

(** [str.isspace] on one character, for code points below 256: the ASCII
    controls 9 to 13, the separators 28 to 31, the space, NEL (133) and the
    no-break space (160). *)
Definition isspace (c : ascii) : bool :=
  let n := N_of_ascii c in
  (((9 <=? n) && (n <=? 13)) || ((28 <=? n) && (n <=? 32))
   || (n =? 133) || (n =? 160))%N.

(** Truth value of a string: only the empty string is falsy. *)
Definition truthy (s : string) : bool :=
  match s with
  | EmptyString => false
  | String _ _ => true
  end.

(** [s.lstrip()]: drops the leading whitespace. *)
Fixpoint lstrip (s : string) : string :=
  match s with
  | EmptyString => EmptyString
  | String c r => if isspace c then lstrip r else s
  end.

(** [s.rstrip()]: drops the trailing whitespace. *)
Fixpoint rstrip (s : string) : string :=
  match s with
  | EmptyString => EmptyString
  | String c r =>
      match rstrip r with
      | EmptyString => if isspace c then EmptyString else String c EmptyString
      | String d r' => String c (String d r')
      end
  end.

(** [s.strip()]. *)
Definition strip (s : string) : string := rstrip (lstrip s).

(** [s.split(sep)] for a one-character separator: the result is never
    empty, and an empty [s] gives the list holding the empty string. *)
Fixpoint split (sep : ascii) (s : string) : list string :=
  match s with
  | EmptyString => [EmptyString]
  | String c r =>
      if Ascii.eqb c sep then EmptyString :: split sep r
      else match split sep r with
           | h :: t => String c h :: t
           | [] => [String c EmptyString]
           end
  end.

(** [sep.join(parts)]. *)
Fixpoint join (sep : string) (parts : list string) : string :=
  match parts with
  | [] => EmptyString
  | [x] => x
  | x :: rest => x ++ sep ++ join sep rest
  end.

(** [s[:n]]: the first [n] characters, all of [s] when it is shorter. *)
Fixpoint slice_to (n : nat) (s : string) : string :=
  match n, s with
  | O, _ => EmptyString
  | S _, EmptyString => EmptyString
  | S k, String c r => String c (slice_to k r)
  end.

(** Every character of [s] is whitespace. *)
Fixpoint all_space (s : string) : bool :=
  match s with
  | EmptyString => true
  | String c r => isspace c && all_space r
  end.

(** The character [c] occurs in [s]. *)
Fixpoint mem_char (c : ascii) (s : string) : bool :=
  match s with
  | EmptyString => false
  | String d r => Ascii.eqb d c || mem_char c r
  end.

(** The string is empty or starts with a character that is not
    whitespace. *)
Definition starts_visible (s : string) : Prop :=
  match s with
  | EmptyString => True
  | String c _ => isspace c = false
  end.

End PyStr.

Import PyStr.

(** ** Data model *)

(** [class AgentState(TypedDict)]. *)
Record AgentState : Type := mkState {
  topic : string;
  plan : list string;
  current_query_index : Z;
  summaries : list string;
  final_report : string
}.

(** The dictionary a node returns: a key is present or absent. *)
Record Update : Type := mkUpdate {
  u_topic : option string;
  u_plan : option (list string);
  u_current_query_index : option Z;
  u_summaries : option (list string);
  u_final_report : option string
}.

Definition no_update : Update :=
  {| u_topic := None; u_plan := None; u_current_query_index := None;
     u_summaries := None; u_final_report := None |}.

(** How the graph writes an optional value into a plain (last-value) field. *)
Definition overwrite {A : Type} (old : A) (new : option A) : A :=
  match new with
  | Some v => v
  | None => old
  end.

(** How the graph merges a node's update into the state. The field
    [summaries] is declared [Annotated[List[str], operator.add]]: the
    returned list is concatenated to the stored one. *)
Definition merge (s : AgentState) (u : Update) : AgentState :=
  {| topic := overwrite (topic s) (u_topic u);
     plan := overwrite (plan s) (u_plan u);
     current_query_index :=
       overwrite (current_query_index s) (u_current_query_index u);
     summaries :=
       match u_summaries u with
       | Some added => summaries s ++ added
       | None => summaries s
       end;
     final_report := overwrite (final_report s) (u_final_report u) |}.

(** The state an entry point starts from: [app.py] passes the topic with an
    empty plan, index 0 and no summaries. *)
Definition initial_state (user_topic : string) : AgentState :=
  {| topic := user_topic; plan := []; current_query_index := 0%Z;
     summaries := []; final_report := EmptyString |}.

(** A search hit: a dictionary read with [result.get('href')] and
    [result.get('title', 'No Title')]. *)
Record SearchResult : Type := mkResult {
  href : option string;
  title : option string
}.

(** Role-tagged messages sent to the model. *)
Inductive Message : Type :=
| SystemMessage (content : string)
| HumanMessage (content : string).

(** Exceptions. *)
Inductive exn : Type :=
| IndexError
| ServiceError (msg : string)
| GraphRecursionError.

(** A call returns a value or raises. *)
Inductive outcome (A : Type) : Type :=
| Returns (a : A)
| Raises (e : exn).
Arguments Returns {A} a.
Arguments Raises {A} e.

(** The nodes of the graph. *)
Inductive Node : Type := planner | researcher | writer.

(** Where an edge leads. *)
Inductive Target : Type :=
| To (n : Node)
| END.

(** What [manager_logic] answers. *)
Inductive Decision : Type := Continue | Finish.

(** What a run leaves behind: node entries and calls to the services. *)
Inductive Event : Type :=
| EvEnter (n : Node) (s : AgentState)
| EvLLM (msgs : list Message)
| EvSearch (query : string) (max_results : Z)
| EvFetch (url : option string)
| EvExtract (downloaded : string).

(** [plan[index]] with Python's indexing. *)
Definition py_getitem {A : Type} (l : list A) (i : Z) : outcome A :=
  let n := Z.of_nat (length l) in
  let j := if (i <? 0)%Z then (i + n)%Z else i in
  if ((0 <=? j) && (j <? n))%Z then
    match nth_error l (Z.to_nat j) with
    | Some a => Returns a
    | None => Raises IndexError
    end
  else Raises IndexError.

(** Truth value of a list and of an optional string ([None] and the empty
    string are falsy). *)
Definition truthy_list {A : Type} (l : list A) : bool :=
  match l with
  | [] => false
  | _ :: _ => true
  end.

Definition truthy_opt (o : option string) : bool :=
  match o with
  | Some s => truthy s
  | None => false
  end.

(** The text of an f-string field holding an optional string. *)
Definition fmt_opt (o : option string) : string :=
  match o with
  | Some s => s
  | None => "None"
  end.

(** The events of a log that are model calls, and those that are node
    entries. *)
Fixpoint llm_calls (l : list Event) : list (list Message) :=
  match l with
  | [] => []
  | EvLLM msgs :: r => msgs :: llm_calls r
  | _ :: r => llm_calls r
  end.

Fixpoint entries (l : list Event) : list (Node * AgentState) :=
  match l with
  | [] => []
  | EvEnter n s :: r => (n, s) :: entries r
  | _ :: r => entries r
  end.

Definition same_node (n m : Node) : bool :=
  match n, m with
  | planner, planner => true
  | researcher, researcher => true
  | writer, writer => true
  | _, _ => false
  end.

(** The states in which node [n] was entered, newest first. *)
Definition entered (n : Node) (l : list Event) : list AgentState :=
  map snd (filter (fun e => same_node (fst e) n) (entries l)).

(** ** The external services and the monad of the nodes *)

(** The three collaborators, as oracles over a world [W]. *)
Record Services (W : Type) : Type := mkServices {
  ddgs_text : string -> Z -> W -> outcome (list SearchResult) * W;
  fetch_url : option string -> W -> outcome (option string) * W;
  extract : string -> W -> outcome (option string) * W;
  llm_invoke : list Message -> W -> outcome string * W
}.
Arguments ddgs_text {W} _ _ _ _.
Arguments fetch_url {W} _ _ _.
Arguments extract {W} _ _ _.
Arguments llm_invoke {W} _ _ _.

(** The state a computation threads: the world and the log, newest event
    first. *)
Record St (W : Type) : Type := mkSt {
  world : W;
  log : list Event
}.
Arguments mkSt {W} _ _.
Arguments world {W} _.
Arguments log {W} _.

(** The log in the order the events happened. *)
Definition trace {W : Type} (st : St W) : list Event := rev (log st).

Definition M (W A : Type) : Type := St W -> outcome A * St W.

Definition ret {W A : Type} (a : A) : M W A := fun st => (Returns a, st).

Definition raise {W A : Type} (e : exn) : M W A := fun st => (Raises e, st).

Definition bind {W A B : Type} (m : M W A) (k : A -> M W B) : M W B :=
  fun st =>
    match m st with
    | (Returns a, st') => k a st'
    | (Raises e, st') => (Raises e, st')
    end.

(** [try: body  except Exception as e: handler]. What the body did to the
    world before raising stays done. *)
Definition try_except {W A : Type} (body : M W A) (handler : exn -> M W A)
  : M W A :=
  fun st =>
    match body st with
    | (Returns a, st') => (Returns a, st')
    | (Raises e, st') => handler e st'
    end.

Definition lift {W A : Type} (o : outcome A) : M W A := fun st => (o, st).

Definition emit {W : Type} (e : Event) : M W unit :=
  fun st => (Returns tt, mkSt (world st) (e :: log st)).

(** A call to a service: logged, then answered by the oracle. *)
Definition call {W A : Type} (e : Event) (f : W -> outcome A * W) : M W A :=
  fun st =>
    let (r, w') := f (world st) in
    (r, mkSt w' (e :: log st)).

Declare Scope monad_scope.
Delimit Scope monad_scope with monad.
Notation "x <- m ;; k" := (bind m (fun x => k))
  (at level 61, m at next level, right associativity) : monad_scope.
Notation "m ;;; k" := (bind m (fun _ => k))
  (at level 61, right associativity) : monad_scope.
Open Scope monad_scope.

(** ** The nodes *)

Section Agent.

Context {W : Type}.
Variable svc : Services W.

(** [llm.invoke(messages).content]. *)
Definition invoke_llm (msgs : list Message) : M W string :=
  call (EvLLM msgs) (llm_invoke svc msgs).

(** *** Planner *)

Definition system_instruction : string :=
  "You are a research planner. Break down the user's topic into 3 distinct, "
  ++ "search-optimized queries. Return ONLY the 3 queries, one per line. "
  ++ "Do not include numbering or bullet points.".

(** Lines 57-58: the reply is trimmed and split at newlines; the lines that
    are not blank are kept, trimmed, and the first three of them make the
    plan. *)
Definition parse_plan (content : string) : list string :=
  let raw_plan := split nl_char (strip content) in
  firstn 3 (map strip (filter (fun line => truthy (strip line)) raw_plan)).

(** Lines 63-67: the dictionary the planner returns. *)
Definition planner_update (plan : list string) : Update :=
  {| u_topic := None;
     u_plan := Some plan;
     u_current_query_index := Some 0%Z;
     u_summaries := Some [];
     u_final_report := None |}.

Definition planner_messages (topic : string) : list Message :=
  [SystemMessage system_instruction; HumanMessage topic].

Definition planner_node (state : AgentState) : M W Update :=
  let topic := topic state in
  response <- invoke_llm (planner_messages topic) ;;
  let plan := parse_plan response in
  ret (planner_update plan).

(** *** Researcher *)

(** Lines 85-93: the search, with its [try]. *)
Definition search_step (query : string) : M W (list SearchResult) :=
  let search_results := [] in
  try_except
    (results_gen <- call (EvSearch query 3) (ddgs_text svc query 3%Z) ;;
     if truthy_list results_gen then ret results_gen else ret search_results)
    (fun _ => ret search_results).

(** The character budget of one scraped document. *)
Definition max_chars : nat := N.to_nat 8000.

(** Line 109: the entry appended for a scraped document. *)
Definition scraped_entry (url : option string) (text : string) : string :=
  "SOURCE: " ++ fmt_opt url ++ nl ++ "CONTENT:" ++ nl
  ++ slice_to max_chars text.

(** Lines 98-115: the body of the loop over the results, with its [try]. *)
Definition scrape_one (result : SearchResult) (scraped_texts : list string)
  : M W (list string) :=
  let url := href result in
  try_except
    (downloaded <- call (EvFetch url) (fetch_url svc url) ;;
     match downloaded with
     | Some page =>
         if truthy page then
           text <- call (EvExtract page) (extract svc page) ;;
           match text with
           | Some t =>
               if truthy t then ret (scraped_texts ++ [scraped_entry url t])%list
               else ret scraped_texts
           | None => ret scraped_texts
           end
         else ret scraped_texts
     | None => ret scraped_texts
     end)
    (fun _ => ret scraped_texts).

(** Lines 96-97: [for result in search_results]. *)
Fixpoint scrape_loop (search_results : list SearchResult)
  (scraped_texts : list string) : M W (list string) :=
  match search_results with
  | [] => ret scraped_texts
  | result :: rest =>
      scraped_texts' <- scrape_one result scraped_texts ;;
      scrape_loop rest scraped_texts'
  end.

Definition summary_prompt (query combined_text : string) : string :=
  "You are a research assistant. Analyze the following scraped text for the query: '"
  ++ query ++ "'. "
  ++ "Provide a concise, fact-heavy summary of the key information found. "
  ++ "Ignore irrelevant navigation or boilerplate text." ++ nl ++ nl
  ++ combined_text.

(** Line 132: the summary of a query for which nothing was scraped. *)
Definition no_content_summary (query : string) : string :=
  "No detailed information could be scraped for the query: " ++ query.

(** Lines 137-140: the dictionary the researcher returns. *)
Definition research_update (index : Z) (summary : string) : Update :=
  {| u_topic := None;
     u_plan := None;
     u_current_query_index := Some (index + 1)%Z;
     u_summaries := Some [summary];
     u_final_report := None |}.

(** Lines 118-133. *)
Definition summarize (query : string) (scraped_texts : list string)
  : M W string :=
  let combined_text := join (nl ++ nl) scraped_texts in
  if truthy combined_text then
    invoke_llm [HumanMessage (summary_prompt query combined_text)]
  else ret (no_content_summary query).

Definition research_node (state : AgentState) : M W Update :=
  let plan := plan state in
  let index := current_query_index state in
  query <- lift (py_getitem plan index) ;;
  search_results <- search_step query ;;
  scraped_texts <- scrape_loop search_results [] ;;
  summary <- summarize query scraped_texts ;;
  ret (research_update index summary).

(** *** Writer *)

Definition summaries_separator : string := nl ++ nl ++ "---" ++ nl ++ nl.

Definition writer_prompt (topic research_context : string) : string :=
  "You are a professional technical writer. The user asked for a report on: '"
  ++ topic ++ "'." ++ nl
  ++ "Below are the summaries from the research phase:" ++ nl ++ nl
  ++ research_context ++ nl ++ nl
  ++ "Write a comprehensive, well-structured Markdown report based ONLY on the above findings. "
  ++ "Include a Title, Introduction, Key Findings (structured appropriately), and Conclusion.".

(** Line 163: the dictionary the writer returns. *)
Definition writer_update (report : string) : Update :=
  {| u_topic := None;
     u_plan := None;
     u_current_query_index := None;
     u_summaries := None;
     u_final_report := Some report |}.

Definition writer_node (state : AgentState) : M W Update :=
  let topic := topic state in
  let summaries := summaries state in
  let research_context := join summaries_separator summaries in
  response <- invoke_llm [HumanMessage (writer_prompt topic research_context)] ;;
  ret (writer_update response).

(** *** Manager logic and the graph *)

Definition manager_logic (state : AgentState) : Decision :=
  if (current_query_index state <? Z.of_nat (length (plan state)))%Z
  then Continue
  else Finish.

Definition node_fn (n : Node) : AgentState -> M W Update :=
  match n with
  | planner => planner_node
  | researcher => research_node
  | writer => writer_node
  end.

Definition entry_point : Node := planner.

(** The edges: planner to researcher; from the researcher the conditional
    edge on [manager_logic]; writer to [END]. *)
Definition edges (n : Node) (s : AgentState) : Target :=
  match n with
  | planner => To researcher
  | researcher =>
      match manager_logic s with
      | Continue => To researcher
      | Finish => To writer
      end
  | writer => END
  end.

(** One step of the graph: enter the node, run it, merge what it returned. *)
Definition step (n : Node) (s : AgentState) : M W AgentState :=
  emit (EvEnter n s) ;;;
  u <- node_fn n s ;;
  ret (merge s u).

(** The graph runs node after node; when the allowed number of steps is
    used up before [END], the run raises. *)
Fixpoint run_from (steps : nat) (n : Node) (s : AgentState)
  : M W AgentState :=
  match steps with
  | O => raise GraphRecursionError
  | S k =>
      s' <- step n s ;;
      match edges n s' with
      | END => ret s'
      | To m => run_from k m s'
      end
  end.

(** The default limit of the graph library. *)
Definition recursion_limit : nat := 25.

(** [app.invoke(initial_state)]. *)
Definition invoke (initial : AgentState) : M W AgentState :=
  run_from recursion_limit entry_point initial.

End Agent.

(** The texts of the prompts are never unfolded by simplification. *)
Arguments system_instruction : simpl never.
Arguments planner_messages : simpl never.
Arguments scraped_entry : simpl never.
Arguments summary_prompt : simpl never.
Arguments no_content_summary : simpl never.
Arguments summaries_separator : simpl never.
Arguments writer_prompt : simpl never.

(** ** Specification-side definitions

    These follow the words of the specification, not the code; the theorems
    of Part II relate the nodes to them. *)

Section Specification.

Context {W : Type}.
Variable svc : Services W.

(** The cursor points into the plan. *)
Definition in_bounds (s : AgentState) : Prop :=
  (0 <= current_query_index s < Z.of_nat (length (plan s)))%Z.

(** The language model answers every request. *)
Definition llm_responsive : Prop :=
  forall msgs w, exists r w', llm_invoke svc msgs w = (Returns r, w').

(** Web Search Client: the hits for a query, none when the client fails. *)
Definition search_hits (query : string) (w : W) : list SearchResult * W :=
  match ddgs_text svc query 3%Z w with
  | (Returns l, w1) => (l, w1)
  | (Raises _, w1) => ([], w1)
  end.

(** Text Extractor: the text extracted for a URL, or no content; a fetch
    or parse failure and an empty answer are no content too. *)
Definition fetch_and_extract (url : option string) (w : W)
  : option string * W :=
  match fetch_url svc url w with
  | (Returns (Some page), w1) =>
      if truthy page then
        match extract svc page w1 with
        | (Returns (Some t), w2) => (if truthy t then Some t else None, w2)
        | (Returns None, w2) => (None, w2)
        | (Raises _, w2) => (None, w2)
        end
      else (None, w1)
  | (Returns None, w1) => (None, w1)
  | (Raises _, w1) => (None, w1)
  end.

(** The documents scraped from a list of hits, in order: source URL and
    extracted text of every hit that gave content. *)
Fixpoint scraped_documents (hits : list SearchResult) (w : W)
  : list (option string * string) * W :=
  match hits with
  | [] => ([], w)
  | r :: rest =>
      let (o, w1) := fetch_and_extract (href r) w in
      let (docs, w2) := scraped_documents rest w1 in
      (match o with
       | Some t => (href r, t) :: docs
       | None => docs
       end, w2)
  end.

(** The documents scraped for a query. *)
Definition documents_for (query : string) (w : W)
  : list (option string * string) * W :=
  let (hits, w1) := search_hits query w in
  scraped_documents hits w1.

(** The entry of a scraped document in the summarization input. *)
Definition document_entry (d : option string * string) : string :=
  scraped_entry (fst d) (snd d).

(** Between two states no model call was made and no node was entered. *)
Definition quiet (st st' : St W) : Prop :=
  llm_calls (log st') = llm_calls (log st) /\
  entries (log st') = entries (log st).

(** No document can be scraped for any query, whatever the world. *)
Definition nothing_scraped : Prop :=
  forall query w, fst (documents_for query w) = [].

End Specification.

(** ** Test doubles *)

(** A world that only counts the calls made, with fixed answers: the model
    answers a planning request (one that starts with a system message) with
    [plan_reply] and any other request with [other_reply]. *)
Definition is_planning (msgs : list Message) : bool :=
  match msgs with
  | SystemMessage _ :: _ => true
  | _ => false
  end.

Definition mock (plan_reply other_reply : outcome string)
  (hits : outcome (list SearchResult))
  (page text : outcome (option string)) : Services nat :=
  {| ddgs_text := fun _ _ w => (hits, S w);
     fetch_url := fun _ w => (page, S w);
     extract := fun _ w => (text, S w);
     llm_invoke := fun msgs w =>
       (if is_planning msgs then plan_reply else other_reply, S w) |}.

Definition st0 : St nat := mkSt 0%nat [].

Definition hit (url : string) : SearchResult :=
  {| href := Some url; title := Some "T" |}.

(** Everything works: a three-line plan, one hit per query, text for it. *)
Definition all_fine : Services nat :=
  mock (Returns ("alpha" ++ nl ++ "beta" ++ nl ++ "gamma"))
       (Returns "S")
       (Returns [hit "http://a"])
       (Returns (Some "<html>"))
       (Returns (Some "body")).

(** The search client always fails. *)
Definition search_down : Services nat :=
  mock (Returns ("alpha" ++ nl ++ "beta"))
       (Returns "S")
       (Raises (ServiceError "search"))
       (Returns (Some "<html>"))
       (Returns (Some "body")).

(** The model fails on every request that is not a planning request. *)
Definition model_down : Services nat :=
  mock (Returns "alpha")
       (Raises (ServiceError "model"))
       (Returns [hit "http://a"])
       (Returns (Some "<html>"))
       (Returns (Some "body")).

(** The model answers the planning request with blanks only. *)
Definition blank_plan : Services nat :=
  mock (Returns ("  " ++ nl ++ " "))
       (Returns "S")
       (Returns [hit "http://a"])
       (Returns (Some "<html>"))
       (Returns (Some "body")).

(** The model repeats a query. *)
Definition repeated_plan : Services nat :=
  mock (Returns ("alpha" ++ nl ++ " alpha "))
       (Returns "S")
       (Returns [])
       (Returns None)
       (Returns None).


(** The extractor finds no text in any page. *)
Definition no_text : Services nat :=
  mock (Returns "alpha")
       (Raises (ServiceError "model"))
       (Returns [hit "http://a"; hit "http://b"])
       (Returns (Some "<html>"))
       (Returns None).

(** A state in the research loop: one query planned, none researched. *)
Definition one_query : AgentState :=
  mkState "solar" ["alpha"] 0 [] EmptyString.

(** A state that already holds a plan and a summary. *)
Definition used_state : AgentState :=
  mkState "solar" ["old query"] 1 ["old summary"] EmptyString.

(** ** Occurrence of a text in another *)

(** [x] occurs in [s]: some text, then [x], then some text. *)
Definition occurs_in (x s : string) : Prop :=
  exists pre post, s = pre ++ x ++ post.

(** ** More of the log *)

(** The searches and the fetches of a log, newest first. *)
Fixpoint searches (l : list Event) : list (string * Z) :=
  match l with
  | [] => []
  | EvSearch query n :: r => (query, n) :: searches r
  | _ :: r => searches r
  end.

Fixpoint fetches (l : list Event) : list (option string) :=
  match l with
  | [] => []
  | EvFetch url :: r => url :: fetches r
  | _ :: r => fetches r
  end.

(** The summary of a query is the fixed sentence for that query or an
    answer of the model to a summarization request for that query. *)
Definition summary_of {W : Type} (svc : Services W)
  (query summary : string) : Prop :=
  summary = no_content_summary query \/
  exists combined_text w w',
    llm_invoke svc [HumanMessage (summary_prompt query combined_text)] w
    = (Returns summary, w').

(** ** The chat page ([app.py], lines 87-150) *)

Module App.

(** An entry of [st.session_state.messages]. *)
Record ChatMessage : Type := mkChat {
  role : string;
  content : string
}.

(** [st.session_state]: the chat history and the last report, [None]
    until a run has succeeded. *)
Record Session : Type := mkSession {
  messages : list ChatMessage;
  final_report : option string
}.

(** What the page shows while and after the agent runs: the lines written
    to the status container, its final label, and the two error boxes.
    Each holds the values its text is formatted from. *)
Inductive Status : Type :=
| PlanCreated (count : nat) (plan : list string)
| ResearchStep (query_number : Z) (summary_len : nat)
| ResearchComplete
| ErrorOccurred (e : exn)
| KeyMissing.

(** The local variable [final_report_text] and the lines written so far. *)
Record Progress : Type := mkProgress {
  final_report_text : string;
  written : list Status
}.

(** Lines 123-138: what the page does with one event of the stream. *)
Definition handle_event (node_name : Node) (state_update : Update)
  (p : Progress) : outcome Progress :=
  match node_name with
  | planner =>
      let plan := overwrite [] (u_plan state_update) in
      Returns (mkProgress (final_report_text p)
                 (written p ++ [PlanCreated (length plan) plan]))
  | researcher =>
      let idx := (overwrite 1%Z (u_current_query_index state_update) - 1)%Z in
      match py_getitem (overwrite [EmptyString] (u_summaries state_update))
                       0%Z with
      | Returns first =>
          Returns (mkProgress (final_report_text p)
                     (written p
                      ++ [ResearchStep (idx + 1)%Z (String.length first)]))
      | Raises e => Raises e
      end
  | writer =>
      Returns (mkProgress (overwrite EmptyString (u_final_report state_update))
                 (written p ++ [ResearchComplete]))
  end.

Section Page.

Context {W : Type}.
Variable svc : Services W.

(** Lines 120-138: [for event in graph_app.stream(initial_state)]. The
    graph yields the update of a node when the node has returned and
    before the next node runs; an exception, of a node or of the loop
    body, ends the loop with what was written so far. *)
Fixpoint stream_loop (steps : nat) (n : Node) (s : AgentState)
  (p : Progress) (st : St W) : (Progress * option exn) * St W :=
  match steps with
  | O => ((p, Some GraphRecursionError), st)
  | S k =>
      match node_fn svc n s (mkSt (world st) (EvEnter n s :: log st)) with
      | (Raises e, st') => ((p, Some e), st')
      | (Returns u, st') =>
          match handle_event n u p with
          | Raises e => ((p, Some e), st')
          | Returns p' =>
              match edges n (merge s u) with
              | END => ((p', None), st')
              | To m => stream_loop k m (merge s u) p' st'
              end
          end
      end
  end.

(** Lines 100-150: one submission of the chat input. [google_api_key] is
    the value of the environment variable, if set. *)
Definition chat_turn (google_api_key : option string) (prompt : string)
  (session : Session) (st : St W) : (Session * list Status) * St W :=
  if truthy prompt then
    if truthy_opt google_api_key then
      let session1 :=
        mkSession (messages session ++ [mkChat "user" prompt])
                  (final_report session) in
      match stream_loop recursion_limit entry_point (initial_state prompt)
                        (mkProgress EmptyString []) st with
      | ((p, None), st') =>
          ((mkSession (messages session1
                       ++ [mkChat "assistant" (final_report_text p)])
                      (Some (final_report_text p)),
            written p), st')
      | ((p, Some e), st') =>
          ((session1, (written p ++ [ErrorOccurred e])%list), st')
      end
    else ((session, [KeyMissing]), st)
  else ((session, []), st).

End Page.

End App.

(** ** More test doubles *)

(** The model fails on the planning request. *)
Definition planner_down : Services nat :=
  mock (Raises (ServiceError "model"))
       (Returns "S")
       (Returns [hit "http://a"])
       (Returns (Some "<html>"))
       (Returns (Some "body")).

(** A chat session with one earlier exchange and its report. *)
Definition earlier_session : App.Session :=
  App.mkSession [App.mkChat "user" "wind"; App.mkChat "assistant" "R0"]
                (Some "R0").

(** ** The summarization request of one researcher invocation *)

(** The messages the researcher sends to the model for a query when it
    starts in world [w], and the world in which it sends them: the one
    left by the search and the scraping. They matter only when a document
    was scraped; otherwise the model is not called. *)
Definition summary_request {W : Type} (svc : Services W)
  (query : string) (w : W) : list Message :=
  [HumanMessage
     (summary_prompt query
        (join (nl ++ nl)
              (map document_entry (fst (documents_for svc query w)))))].

Definition summary_world {W : Type} (svc : Services W)
  (query : string) (w : W) : W :=
  snd (documents_for svc query w).

(* ================================================================== *)
(** * Part II: lemmas and theorems *)
(* ================================================================== *)

(** ** Strings *)

Module PyStrFacts.

Lemma isspace_nl : isspace nl_char = true.
Proof. reflexivity. Qed.

Lemma truthy_false (s : string) : truthy s = false <-> s = EmptyString.
Proof. destruct s; simpl; split; congruence. Qed.

Lemma truthy_true (s : string) : truthy s = true <-> s <> EmptyString.
Proof. destruct s; simpl; split; congruence. Qed.

Lemma all_space_lstrip (s : string) : all_space (lstrip s) = all_space s.
Proof.
  induction s as [|c r IH]; simpl; [reflexivity|].
  destruct (isspace c) eqn:Hc; simpl; [exact IH | now rewrite Hc].
Qed.

Lemma all_space_rstrip (s : string) : all_space (rstrip s) = all_space s.
Proof.
  induction s as [|c r IH]; simpl; [reflexivity|].
  destruct (rstrip r) as [|d r'] eqn:Hr.
  - simpl in IH. rewrite <- IH.
    destruct (isspace c) eqn:Hc; simpl; rewrite ?Hc; reflexivity.
  - rewrite <- IH. reflexivity.
Qed.

Lemma all_space_strip (s : string) : all_space (strip s) = all_space s.
Proof. unfold strip. now rewrite all_space_rstrip, all_space_lstrip. Qed.

Lemma lstrip_all_space (s : string) :
  all_space s = true -> lstrip s = EmptyString.
Proof.
  induction s as [|c r IH]; simpl; [reflexivity|].
  intros H. apply andb_true_iff in H as [Hc Hr]. now rewrite Hc; apply IH.
Qed.

(** A string trims to nothing exactly when it is all whitespace. *)
Lemma strip_empty_iff (s : string) :
  strip s = EmptyString <-> all_space s = true.
Proof.
  split; intros H.
  - rewrite <- all_space_strip, H. reflexivity.
  - unfold strip. now rewrite lstrip_all_space.
Qed.

Lemma rstrip_idem (s : string) : rstrip (rstrip s) = rstrip s.
Proof.
  induction s as [|c r IH]; simpl; [reflexivity|].
  destruct (rstrip r) as [|d r'] eqn:Hr.
  - destruct (isspace c) eqn:Hc; simpl; [reflexivity | now rewrite Hc].
  - change (rstrip (String c (String d r'))) with
      (match rstrip (String d r') with
       | EmptyString =>
           if isspace c then EmptyString else String c EmptyString
       | String e r'' => String c (String e r'')
       end).
    rewrite IH. reflexivity.
Qed.

(** What is left of a left-trimmed string starts with a visible character. *)
Lemma lstrip_starts_visible (s : string) : starts_visible (lstrip s).
Proof.
  induction s as [|c r IH]; simpl; [exact I|].
  destruct (isspace c) eqn:Hc; [exact IH | exact Hc].
Qed.

Lemma lstrip_fixed (s : string) : starts_visible s -> lstrip s = s.
Proof. destruct s as [|c r]; simpl; [reflexivity|]. now intros ->. Qed.

Lemma rstrip_starts_visible (s : string) :
  starts_visible s -> starts_visible (rstrip s).
Proof.
  destruct s as [|c r]; simpl; [trivial|]. intros Hc.
  destruct (rstrip r); [rewrite Hc|]; exact Hc.
Qed.

(** Trimming twice is trimming once. *)
Lemma strip_idem (s : string) : strip (strip s) = strip s.
Proof.
  unfold strip.
  rewrite (lstrip_fixed (rstrip (lstrip s))).
  - apply rstrip_idem.
  - apply rstrip_starts_visible, lstrip_starts_visible.
Qed.

(** The lines of a text are all blank exactly when the text is. *)
Lemma split_nonempty (sep : ascii) (s : string) : split sep s <> [].
Proof.
  destruct s as [|c r]; simpl; [discriminate|].
  destruct (Ascii.eqb c sep); [discriminate|].
  destruct (split sep r); discriminate.
Qed.

Lemma forallb_all_space_split (s : string) :
  forallb all_space (split nl_char s) = all_space s.
Proof.
  induction s as [|c r IH]; simpl; [reflexivity|].
  destruct (Ascii.eqb c nl_char) eqn:Hc.
  - apply Ascii.eqb_eq in Hc. subst c. simpl. now rewrite IH.
  - destruct (split nl_char r) as [|h t] eqn:Hs.
    + now apply split_nonempty in Hs.
    + simpl in *. rewrite <- IH. now rewrite andb_assoc.
Qed.

(** No line of a split text holds the separator. *)
Lemma split_no_sep (sep : ascii) (s : string) :
  Forall (fun line => mem_char sep line = false) (split sep s).
Proof.
  induction s as [|c r IH]; simpl.
  - constructor; [reflexivity | constructor].
  - destruct (Ascii.eqb c sep) eqn:Hc.
    + constructor; [reflexivity | exact IH].
    + destruct (split sep r) as [|h t].
      * constructor; [simpl; now rewrite Hc | constructor].
      * inversion IH as [|? ? Hh Ht]; subst.
        constructor; [simpl; now rewrite Hc, Hh | exact Ht].
Qed.

Lemma mem_char_lstrip (c : ascii) (s : string) :
  mem_char c s = false -> mem_char c (lstrip s) = false.
Proof.
  induction s as [|d r IH]; simpl; [trivial|]. intros H.
  apply orb_false_iff in H as [Hd Hr].
  destruct (isspace d); [now apply IH | simpl; now rewrite Hd, Hr].
Qed.

Lemma mem_char_rstrip (c : ascii) (s : string) :
  mem_char c s = false -> mem_char c (rstrip s) = false.
Proof.
  induction s as [|d r IH]; simpl; [trivial|]. intros H.
  apply orb_false_iff in H as [Hd Hr]. specialize (IH Hr).
  destruct (rstrip r) as [|e r'].
  - destruct (isspace d); simpl; [reflexivity | now rewrite Hd].
  - simpl in *. now rewrite Hd, IH.
Qed.

Lemma mem_char_strip (c : ascii) (s : string) :
  mem_char c s = false -> mem_char c (strip s) = false.
Proof. intros H. now apply mem_char_rstrip, mem_char_lstrip. Qed.




Lemma slice_to_long (n : nat) (s : string) :
  (n <= String.length s)%nat -> String.length (slice_to n s) = n.
Proof.
  revert s; induction n as [|k IH]; intros [|c r]; simpl; intros H;
    try reflexivity; try lia.
  f_equal. apply IH. lia.
Qed.

End PyStrFacts.

Import PyStrFacts.

(** ** The monad *)

Section MonadFacts.

Context {W : Type}.

Lemma bind_returns {A B : Type} (m : M W A) (k : A -> M W B) st a st' :
  m st = (Returns a, st') -> bind m k st = k a st'.
Proof. unfold bind. now intros ->. Qed.

Lemma bind_raises {A B : Type} (m : M W A) (k : A -> M W B) st e st' :
  m st = (Raises e, st') -> bind m k st = (Raises e, st').
Proof. unfold bind. now intros ->. Qed.

Lemma call_eq {A : Type} (ev : Event) (f : W -> outcome A * W) st :
  call ev f st = (fst (f (world st)), mkSt (snd (f (world st))) (ev :: log st)).
Proof. unfold call. now destruct (f (world st)). Qed.

End MonadFacts.

(** ** Planner *)

Section PlannerFacts.

Context {W : Type}.
Variable svc : Services W.

Lemma parse_plan_length (content : string) :
  (length (parse_plan content) <= 3)%nat.
Proof. unfold parse_plan. apply firstn_le_length. Qed.

Lemma firstn_succ_nil {A : Type} (n : nat) (l : list A) :
  firstn (S n) l = [] <-> l = [].
Proof. destruct l; simpl; split; congruence. Qed.

Lemma In_firstn {A : Type} (n : nat) (l : list A) (x : A) :
  In x (firstn n l) -> In x l.
Proof.
  intros H. rewrite <- (firstn_skipn n l). apply in_or_app. now left.
Qed.

Lemma filter_nil_forallb {A : Type} (f : A -> bool) (l : list A) :
  filter f l = [] <-> forallb (fun x => negb (f x)) l = true.
Proof.
  induction l as [|x l IH]; simpl; [tauto|].
  destruct (f x); simpl; [split; discriminate | exact IH].
Qed.

(** The plan is empty exactly when the reply is all whitespace. *)
Lemma parse_plan_nil_iff (content : string) :
  parse_plan content = [] <-> all_space content = true.
Proof.
  unfold parse_plan. rewrite firstn_succ_nil.
  rewrite <- all_space_strip, <- forallb_all_space_split.
  generalize (split nl_char (strip content)) as lines. intros lines.
  split.
  - intros H. apply map_eq_nil in H. apply filter_nil_forallb in H.
    rewrite forallb_forall in *. intros line Hin. specialize (H line Hin).
    apply negb_true_iff, truthy_false in H. now apply strip_empty_iff.
  - intros H. replace (filter _ lines) with (@nil string); [reflexivity|].
    symmetry. apply filter_nil_forallb. rewrite forallb_forall in *.
    intros line Hin. apply negb_true_iff, truthy_false, strip_empty_iff.
    now apply H.
Qed.

(** Every query of the plan is one line of the trimmed reply, trimmed, and
    is not empty. *)
Lemma parse_plan_entries (content : string) :
  Forall (fun q =>
            q <> EmptyString /\ strip q = q /\ mem_char nl_char q = false /\
            exists line, In line (split nl_char (strip content)) /\
                         q = strip line)
         (parse_plan content).
Proof.
  unfold parse_plan. apply Forall_forall. intros q Hq.
  apply In_firstn in Hq. apply in_map_iff in Hq as [line [<- Hline]].
  apply filter_In in Hline as [Hin Hne]. repeat split.
  - now apply truthy_true.
  - apply strip_idem.
  - apply mem_char_strip.
    pose proof (split_no_sep nl_char (strip content)) as Hs.
    rewrite Forall_forall in Hs. now apply Hs.
  - now exists line.
Qed.

(** What the planner returns when the model answers [reply]. *)
Lemma planner_node_returns (state : AgentState) (st : St W) reply w' :
  llm_invoke svc (planner_messages (topic state)) (world st)
    = (Returns reply, w') ->
  planner_node svc state st
    = (Returns (planner_update (parse_plan reply)),
       mkSt w' (EvLLM (planner_messages (topic state)) :: log st)).
Proof.
  intros H. unfold planner_node, invoke_llm.
  erewrite bind_returns; [reflexivity|].
  rewrite call_eq, H. reflexivity.
Qed.

(** A failure of the model is a failure of the planner. *)
Lemma planner_node_raises (state : AgentState) (st : St W) e w' :
  llm_invoke svc (planner_messages (topic state)) (world st)
    = (Raises e, w') ->
  planner_node svc state st
    = (Raises e, mkSt w' (EvLLM (planner_messages (topic state)) :: log st)).
Proof.
  intros H. unfold planner_node, invoke_llm.
  erewrite bind_raises; [reflexivity|].
  rewrite call_eq, H. reflexivity.
Qed.

End PlannerFacts.

(** ** Researcher *)

Section ResearcherFacts.

Context {W : Type}.
Variable svc : Services W.

Lemma quiet_refl (st : St W) : quiet st st.
Proof. split; reflexivity. Qed.

Lemma quiet_trans (st1 st2 st3 : St W) :
  quiet st1 st2 -> quiet st2 st3 -> quiet st1 st3.
Proof. intros [H1 H2] [H3 H4]. split; congruence. Qed.

(** Python's indexing succeeds inside the bounds, and fails on an empty
    list. *)
Lemma py_getitem_in_bounds {A : Type} (l : list A) (i : Z) :
  (0 <= i < Z.of_nat (length l))%Z ->
  exists a, py_getitem l i = Returns a /\ nth_error l (Z.to_nat i) = Some a.
Proof.
  intros H. unfold py_getitem.
  destruct (Z.ltb_spec i 0); [lia|].
  destruct (Z.leb_spec 0 i); [|lia].
  destruct (Z.ltb_spec i (Z.of_nat (length l))); [|lia]. simpl.
  destruct (nth_error l (Z.to_nat i)) as [a|] eqn:Hn; [now exists a|].
  apply nth_error_None in Hn. lia.
Qed.

Lemma py_getitem_nil {A : Type} (i : Z) :
  py_getitem (@nil A) i = Raises IndexError.
Proof.
  unfold py_getitem. simpl.
  destruct (i <? 0)%Z; destruct (_ && _); try reflexivity;
    now destruct (Z.to_nat _).
Qed.

(** The search step never raises: it yields the hits of the search client,
    none when the client fails. *)
Lemma search_step_eq (query : string) (st : St W) :
  search_step svc query st
  = (Returns (fst (search_hits svc query (world st))),
     mkSt (snd (search_hits svc query (world st)))
          (EvSearch query 3 :: log st)).
Proof.
  unfold search_step, try_except, bind, call, search_hits, ret.
  destruct (ddgs_text svc query 3 (world st)) as [[l|e] w1]; simpl;
    [destruct l|]; reflexivity.
Qed.

(** One turn of the scraping loop never raises: it appends the entry of the
    document when the extractor gives content and leaves the list alone
    otherwise. *)
Lemma scrape_one_eq (r : SearchResult) (acc : list string) (st : St W) :
  exists st',
    scrape_one svc r acc st
    = (Returns (match fst (fetch_and_extract svc (href r) (world st)) with
                | Some t => (acc ++ [scraped_entry (href r) t])%list
                | None => acc
                end), st') /\
    world st' = snd (fetch_and_extract svc (href r) (world st)) /\
    quiet st st'.
Proof.
  unfold scrape_one, try_except, bind, call, fetch_and_extract, ret, quiet.
  destruct (fetch_url svc (href r) (world st)) as [[[page|]|e] w1]; simpl;
    try (eexists; repeat split; reflexivity).
  destruct (truthy page); simpl; try (eexists; repeat split; reflexivity).
  destruct (extract svc page w1) as [[[t|]|e] w2]; simpl;
    try (eexists; repeat split; reflexivity).
  destruct (truthy t); simpl; eexists; repeat split; reflexivity.
Qed.

(** The scraping loop never raises: it appends the entries of the scraped
    documents, in order. *)
Lemma scrape_loop_eq (rs : list SearchResult) :
  forall (acc : list string) (st : St W),
  exists st',
    scrape_loop svc rs acc st
    = (Returns (acc ++ map document_entry
                         (fst (scraped_documents svc rs (world st))))%list,
       st') /\
    world st' = snd (scraped_documents svc rs (world st)) /\
    quiet st st'.
Proof.
  induction rs as [|r rs IH]; intros acc st.
  - exists st. simpl. rewrite app_nil_r. auto using quiet_refl.
  - destruct (scrape_one_eq r acc st) as [st1 [H1 [Hw1 Hq1]]].
    simpl. rewrite (bind_returns _ _ _ _ _ H1).
    destruct (IH (match fst (fetch_and_extract svc (href r) (world st)) with
                  | Some t => (acc ++ [scraped_entry (href r) t])%list
                  | None => acc
                  end) st1) as [st2 [H2 [Hw2 Hq2]]].
    exists st2. rewrite H2, Hw2, Hw1.
    destruct (fetch_and_extract svc (href r) (world st)) as [o w1]; simpl.
    destruct (scraped_documents svc rs w1) as [docs w2]; simpl.
    split; [|split; [reflexivity | eauto using quiet_trans]].
    destruct o; simpl; [now rewrite <- app_assoc | reflexivity].
Qed.

Lemma truthy_join_cons (sep x : string) (l : list string) :
  truthy x = true -> truthy (join sep (x :: l)) = true.
Proof.
  destruct x as [|c x]; [discriminate|]. intros _.
  destruct l; reflexivity.
Qed.

Lemma truthy_scraped_entry (url : option string) (t : string) :
  truthy (scraped_entry url t) = true.
Proof. reflexivity. Qed.

(** With nothing scraped the summary is the fixed sentence and the model
    is not called; otherwise the summary is the model's answer to the
    prompt built from the joined entries. *)
Lemma summarize_nothing (query : string) (st : St W) :
  summarize svc query [] st = (Returns (no_content_summary query), st).
Proof. reflexivity. Qed.

Lemma summarize_documents (query : string) d ds (st : St W) :
  let entries := map document_entry (d :: ds) in
  summarize svc query entries st
  = invoke_llm svc
      [HumanMessage (summary_prompt query (join (nl ++ nl) entries))] st.
Proof.
  intros entries. unfold summarize.
  replace (truthy (join (nl ++ nl) entries)) with true; [reflexivity|].
  symmetry. apply truthy_join_cons, truthy_scraped_entry.
Qed.

(** The researcher, step by step: outside the plan the indexing raises;
    inside, the documents of the query are scraped without a failure and
    summarized. *)
Lemma research_node_index_error (s : AgentState) (st : St W) e :
  py_getitem (plan s) (current_query_index s) = Raises e ->
  research_node svc s st = (Raises e, st).
Proof. intros H. unfold research_node, bind, lift. now rewrite H. Qed.

Lemma research_node_eq (s : AgentState) (st : St W) query :
  py_getitem (plan s) (current_query_index s) = Returns query ->
  exists st2,
    world st2 = snd (documents_for svc query (world st)) /\
    quiet st st2 /\
    research_node svc s st
    = match summarize svc query
              (map document_entry (fst (documents_for svc query (world st))))
              st2 with
      | (Returns summary, st3) =>
          (Returns (research_update (current_query_index s) summary), st3)
      | (Raises e, st3) => (Raises e, st3)
      end.
Proof.
  intros Hq. unfold research_node.
  rewrite (bind_returns _ _ st query st) by (unfold lift; now rewrite Hq).
  rewrite (bind_returns _ _ _ _ _ (search_step_eq query st)).
  unfold documents_for.
  destruct (search_hits svc query (world st)) as [hits w1] eqn:Hh. simpl.
  destruct (scrape_loop_eq hits [] (mkSt w1 (EvSearch query 3 :: log st)))
    as [st2 [H2 [Hw2 [Hl2 He2]]]].
  simpl in *. rewrite (bind_returns _ _ _ _ _ H2).
  exists st2. split; [assumption|]. split; [split; assumption|].
  unfold bind, ret.
  destruct (summarize svc query _ st2) as [[sm|e] st3]; reflexivity.
Qed.

End ResearcherFacts.

(** ** Writer *)

Section WriterFacts.

Context {W : Type}.
Variable svc : Services W.

Lemma invoke_llm_eq (msgs : list Message) (st : St W) :
  invoke_llm svc msgs st
  = (fst (llm_invoke svc msgs (world st)),
     mkSt (snd (llm_invoke svc msgs (world st))) (EvLLM msgs :: log st)).
Proof. apply call_eq. Qed.

Lemma writer_node_eq (s : AgentState) (st : St W) :
  let msgs :=
    [HumanMessage
       (writer_prompt (topic s) (join summaries_separator (summaries s)))] in
  writer_node svc s st
  = match llm_invoke svc msgs (world st) with
    | (Returns report, w') =>
        (Returns (writer_update report), mkSt w' (EvLLM msgs :: log st))
    | (Raises e, w') => (Raises e, mkSt w' (EvLLM msgs :: log st))
    end.
Proof.
  intros msgs. unfold writer_node, bind. fold msgs. rewrite invoke_llm_eq.
  destruct (llm_invoke svc msgs (world st)) as [[r|e] w']; reflexivity.
Qed.

End WriterFacts.

(** ** The graph *)

Section GraphFacts.

Context {W : Type}.
Variable svc : Services W.

Lemma step_eq (n : Node) (s : AgentState) (st : St W) :
  step svc n s st
  = match node_fn svc n s (mkSt (world st) (EvEnter n s :: log st)) with
    | (Returns u, st') => (Returns (merge s u), st')
    | (Raises e, st') => (Raises e, st')
    end.
Proof.
  unfold step, bind, emit, ret.
  destruct (node_fn svc n s _) as [[u|e] st']; reflexivity.
Qed.

Lemma run_from_succ (k : nat) (n : Node) (s : AgentState) (st : St W) :
  run_from svc (S k) n s st
  = match step svc n s st with
    | (Returns s', st') =>
        match edges n s' with
        | END => (Returns s', st')
        | To m => run_from svc k m s' st'
        end
    | (Raises e, st') => (Raises e, st')
    end.
Proof.
  simpl. unfold bind.
  destruct (step svc n s st) as [[s'|e] st']; [|reflexivity].
  destruct (edges n s'); reflexivity.
Qed.

(** No node enters a node: only the graph does. *)
Lemma research_node_entries (s : AgentState) (st : St W) :
  entries (log (snd (research_node svc s st))) = entries (log st).
Proof.
  destruct (py_getitem (plan s) (current_query_index s)) as [q|e] eqn:Hq.
  - destruct (research_node_eq svc s st q Hq) as [st2 [_ [[_ He] ->]]].
    destruct (fst (documents_for svc q (world st))) as [|d ds].
    + simpl. exact He.
    + rewrite summarize_documents, invoke_llm_eq.
      destruct (llm_invoke svc _ (world st2)) as [[r|e] w']; exact He.
  - now rewrite (research_node_index_error svc s st e Hq).
Qed.

Lemma node_fn_entries (n : Node) (s : AgentState) (st : St W) :
  entries (log (snd (node_fn svc n s st))) = entries (log st).
Proof.
  destruct n; simpl.
  - unfold planner_node, bind. rewrite invoke_llm_eq.
    destruct (llm_invoke svc _ (world st)) as [[r|e] w']; reflexivity.
  - apply research_node_entries.
  - rewrite writer_node_eq.
    destruct (llm_invoke svc _ (world st)) as [[r|e] w']; reflexivity.
Qed.

Lemma step_entries (n : Node) (s : AgentState) (st : St W) :
  entries (log (snd (step svc n s st))) = (n, s) :: entries (log st).
Proof.
  rewrite step_eq.
  pose proof (node_fn_entries n s (mkSt (world st) (EvEnter n s :: log st)))
    as H.
  destruct (node_fn svc n s _) as [[u|e] st']; exact H.
Qed.

(** The topic of the state is the same after any step. *)
Lemma step_topic (n : Node) (s s' : AgentState) (st st' : St W) :
  step svc n s st = (Returns s', st') -> topic s' = topic s.
Proof.
  rewrite step_eq. destruct n; simpl.
  - unfold planner_node, bind. rewrite invoke_llm_eq.
    destruct (llm_invoke svc _ _) as [[r|e] w']; simpl; intros H;
      inversion H; reflexivity.
  - set (st1 := mkSt _ _).
    destruct (py_getitem (plan s) (current_query_index s)) as [q|e] eqn:Hq.
    + destruct (research_node_eq svc s st1 q Hq) as [st2 [_ [_ ->]]].
      destruct (summarize svc q _ st2) as [[sm|e] st3]; intros H;
        inversion H; reflexivity.
    + rewrite (research_node_index_error svc s st1 e Hq). discriminate.
  - rewrite writer_node_eq.
    destruct (llm_invoke svc _ _) as [[r|e] w']; simpl; intros H;
      inversion H; reflexivity.
Qed.

Lemma run_from_topic (fuel : nat) :
  forall (n : Node) (s s' : AgentState) (st st' : St W),
  run_from svc fuel n s st = (Returns s', st') -> topic s' = topic s.
Proof.
  induction fuel as [|k IH]; intros n s s' st st'; [discriminate|].
  rewrite run_from_succ.
  destruct (step svc n s st) as [[s1|e] st1] eqn:Hs; [|discriminate].
  apply step_topic in Hs.
  destruct (edges n s1) as [m|]; intros H.
  - apply IH in H. congruence.
  - inversion H; subst. exact Hs.
Qed.

(** Reading the researcher's entries off a log. *)
Lemma entered_entries (n : Node) (l l' : list Event) :
  entries l = entries l' -> entered n l = entered n l'.
Proof. unfold entered. now intros ->. Qed.

Lemma entered_step (n m : Node) (s : AgentState) (st : St W) :
  entered m (log (snd (step svc n s st)))
  = if same_node n m then s :: entered m (log st) else entered m (log st).
Proof.
  unfold entered. rewrite step_entries. destruct n, m; reflexivity.
Qed.

Lemma entered_visited (n : Node) (visited : list AgentState)
  (rest : list (Node * AgentState)) :
  map snd (filter (fun e => same_node (fst e) n)
                  (map (pair researcher) visited ++ rest))
  = ((if same_node researcher n then visited else [])
     ++ map snd (filter (fun e => same_node (fst e) n) rest))%list.
Proof.
  induction visited as [|v vs IH]; [now destruct n|].
  destruct n; simpl in *; now rewrite IH.
Qed.

(** The writer is the last node of a run. *)
Lemma run_from_writer (k : nat) (s : AgentState) (st : St W) :
  run_from svc (S k) writer s st = step svc writer s st.
Proof.
  rewrite run_from_succ.
  destruct (step svc writer s st) as [[s'|e] st']; reflexivity.
Qed.

End GraphFacts.

(** ** The research loop *)

Section LoopFacts.

Context {W : Type}.
Variable svc : Services W.

Lemma merge_research_update (s : AgentState) (summary : string) :
  merge s (research_update (current_query_index s) summary)
  = mkState (topic s) (plan s) (current_query_index s + 1)
            (summaries s ++ [summary]) (final_report s).
Proof. reflexivity. Qed.

Lemma merge_planner_update (s : AgentState) (p : list string) :
  merge s (planner_update p)
  = mkState (topic s) p 0 (summaries s) (final_report s).
Proof. unfold merge. simpl. now rewrite app_nil_r. Qed.

Lemma merge_writer_update (s : AgentState) (report : string) :
  merge s (writer_update report)
  = mkState (topic s) (plan s) (current_query_index s) (summaries s) report.
Proof. reflexivity. Qed.

(** A step of the researcher that returns has merged a researcher's
    update. *)
Lemma step_researcher_returns (s s' : AgentState) (st st' : St W) :
  step svc researcher s st = (Returns s', st') ->
  exists summary,
    s' = mkState (topic s) (plan s) (current_query_index s + 1)
                 (summaries s ++ [summary]) (final_report s).
Proof.
  rewrite step_eq. simpl. set (st1 := mkSt _ _).
  destruct (py_getitem (plan s) (current_query_index s)) as [q|e] eqn:Hq.
  - destruct (research_node_eq svc s st1 q Hq) as [st2 [_ [_ ->]]].
    destruct (summarize svc q _ st2) as [[sm|e] st3]; intros H;
      inversion H; subst. now exists sm.
  - rewrite (research_node_index_error svc s st1 e Hq). discriminate.
Qed.

(** Inside the research loop the plan is fixed and the cursor stays
    inside it, whatever the services do and however long the run goes
    on. *)
Lemma researcher_safe (p : list string) (fuel : nat) :
  forall (s : AgentState) (st : St W),
  plan s = p -> in_bounds s ->
  Forall (fun s' => plan s' = p /\ in_bounds s')
         (entered researcher (log st)) ->
  Forall (fun s' => plan s' = p /\ in_bounds s')
         (entered researcher (log (snd (run_from svc fuel researcher s st)))).
Proof.
  induction fuel as [|k IH]; intros s st Hp Hs Hlog; [exact Hlog|].
  rewrite run_from_succ.
  pose proof (entered_step svc researcher researcher s st) as Hent.
  destruct (step svc researcher s st) as [[s'|e] st'] eqn:Hstep;
    simpl in Hent.
  - assert (Hlog' : Forall (fun s' => plan s' = p /\ in_bounds s')
                           (entered researcher (log st')))
      by (rewrite Hent; now constructor).
    destruct (step_researcher_returns _ _ _ _ Hstep) as [sm ->].
    unfold edges, manager_logic. simpl.
    destruct (Z.ltb_spec (current_query_index s + 1)
                         (Z.of_nat (length (plan s)))) as [Hlt|Hge].
    + apply IH; [exact Hp | | exact Hlog'].
      unfold in_bounds in *. simpl. lia.
    + destruct k as [|k']; [exact Hlog'|].
      rewrite run_from_writer, entered_step. exact Hlog'.
  - simpl. rewrite Hent. now constructor.
Qed.

Lemma skipn_nth_error {A : Type} (l : list A) :
  forall (i : nat) (a : A),
  nth_error l i = Some a -> skipn i l = a :: skipn (S i) l.
Proof.
  induction l as [|x l IH]; intros [|i] a H; simpl in *; try discriminate.
  - now inversion H.
  - now apply IH.
Qed.

Section Completion.

(** What one turn of the researcher guarantees about the summary of a
    query, given that it returns. *)
Variable P : string -> string -> Prop.

Hypothesis researcher_returns :
  forall (s : AgentState) (st : St W) (query : string),
  py_getitem (plan s) (current_query_index s) = Returns query ->
  exists summary st',
    research_node svc s st
    = (Returns (research_update (current_query_index s) summary), st') /\
    P query summary.

(** From a cursor inside the plan the researcher runs once for each query
    left, then the writer is entered. *)
Lemma research_loop (n : nat) :
  forall (fuel : nat) (s : AgentState) (st : St W),
  in_bounds s ->
  Z.of_nat n = (Z.of_nat (length (plan s)) - current_query_index s)%Z ->
  (n <= fuel)%nat ->
  exists (added : list string) (visited : list AgentState) (st' : St W),
    run_from svc fuel researcher s st
    = run_from svc (fuel - n) writer
        (mkState (topic s) (plan s) (Z.of_nat (length (plan s)))
                 (summaries s ++ added) (final_report s)) st' /\
    Forall2 P (skipn (Z.to_nat (current_query_index s)) (plan s)) added /\
    entries (log st')
    = (map (pair researcher) visited ++ entries (log st))%list /\
    length visited = n.
Proof.
  induction n as [|m IH]; intros fuel s st Hs Hn Hfuel.
  { unfold in_bounds in Hs. lia. }
  destruct fuel as [|k]; [lia|].
  destruct (py_getitem_in_bounds (plan s) (current_query_index s) Hs)
    as [q [Hq Hnth]].
  rewrite run_from_succ.
  pose proof (step_entries svc researcher s st) as Hent.
  rewrite step_eq in *. simpl node_fn in *.
  destruct (researcher_returns s
              (mkSt (world st) (EvEnter researcher s :: log st)) q Hq)
    as [sm [st1 [Hnode HP]]].
  rewrite Hnode in *. simpl in Hent. rewrite merge_research_update.
  unfold edges, manager_logic. simpl.
  pose proof (skipn_nth_error _ _ _ Hnth) as Hskip.
  destruct (Z.ltb_spec (current_query_index s + 1)
                       (Z.of_nat (length (plan s)))) as [Hlt|Hge].
  - destruct (IH k (mkState (topic s) (plan s) (current_query_index s + 1)
                            (summaries s ++ [sm]) (final_report s)) st1)
      as [added [visited [st' [Hrun [Hall [Hent' Hlen]]]]]];
      [unfold in_bounds in *; simpl; lia | simpl; lia | lia |].
    simpl in Hrun, Hall, Hent'.
    exists (sm :: added), (visited ++ [s])%list, st'.
    rewrite Hrun, <- app_assoc. simpl.
    repeat split.
    + rewrite Hskip. constructor; [exact HP|].
      replace (S (Z.to_nat (current_query_index s)))
        with (Z.to_nat (current_query_index s + 1))
        by (unfold in_bounds in Hs; lia).
      exact Hall.
    + rewrite Hent', Hent, map_app, <- app_assoc. reflexivity.
    + rewrite length_app. simpl. lia.
  - assert (m = 0%nat) by lia. subst m.
    exists [sm], [s], st1. simpl. rewrite Nat.sub_0_r.
    replace (current_query_index s + 1)%Z
      with (Z.of_nat (length (plan s))) by lia.
    repeat split; [|exact Hent].
    rewrite Hskip. constructor; [exact HP|].
    rewrite skipn_all2; [constructor|].
    unfold in_bounds in Hs. lia.
Qed.

(** A whole run whose planner gives a plan that is not empty: the
    researcher is entered once for each query, in order, and then the
    writer is entered with one summary for each query. *)
Lemma run_with_plan (fuel : nat) (s0 : AgentState) (st : St W) reply w1 :
  llm_invoke svc (planner_messages (topic s0)) (world st)
    = (Returns reply, w1) ->
  parse_plan reply <> [] ->
  (length (parse_plan reply) + 2 <= fuel)%nat ->
  exists (added : list string) (visited : list AgentState) (st' : St W),
    run_from svc fuel planner s0 st
    = step svc writer
        (mkState (topic s0) (parse_plan reply)
                 (Z.of_nat (length (parse_plan reply)))
                 (summaries s0 ++ added) (final_report s0)) st' /\
    Forall2 P (parse_plan reply) added /\
    entries (log st')
    = (map (pair researcher) visited ++ (planner, s0) :: entries (log st))%list
    /\ length visited = length (parse_plan reply).
Proof.
  intros Hllm Hne Hfuel. set (p := parse_plan reply) in *.
  destruct fuel as [|k]; [lia|].
  rewrite run_from_succ, step_eq. simpl node_fn.
  rewrite (planner_node_returns svc s0
             (mkSt (world st) (EvEnter planner s0 :: log st)) reply w1 Hllm).
  fold p. rewrite merge_planner_update. simpl edges.
  set (st1 := mkSt w1 _).
  assert (Hlen : (0 < length p)%nat) by (destruct p; simpl; [easy | lia]).
  destruct (research_loop (length p) k
              (mkState (topic s0) p 0 (summaries s0) (final_report s0)) st1)
    as [added [visited [st' [Hrun [Hall [Hent Hvis]]]]]];
    [unfold in_bounds; simpl; lia | simpl; lia | lia |].
  simpl in Hrun, Hall, Hent.
  exists added, visited, st'. rewrite Hrun.
  destruct (k - length p)%nat as [|j] eqn:Hj; [lia|].
  rewrite run_from_writer. auto.
Qed.

End Completion.

End LoopFacts.

(* ================================================================== *)
(** * Part III: the claims *)
(* ================================================================== *)

(** ** Planner *)

(** C3, as amended. When the model answers the planning request with
    [reply], the planner returns and the plan it stores has at most 3
    queries; the plan has at least one query exactly when the reply is not
    made of whitespace only. A non-empty topic does not make the plan
    non-empty: the bound below comes from the reply alone. *)
Theorem planner_plan_size :
  forall (W : Type) (svc : Services W) (s : AgentState) (st : St W)
         (reply : string) (w' : W),
  llm_invoke svc (planner_messages (topic s)) (world st)
    = (Returns reply, w') ->
  exists (p : list string) (st' : St W),
    planner_node svc s st = (Returns (planner_update p), st') /\
    plan (merge s (planner_update p)) = p /\
    (length p <= 3)%nat /\
    ((1 <= length p)%nat <-> all_space reply = false).
Proof.
  intros W svc s st reply w' Hllm.
  exists (parse_plan reply). eexists.
  split; [exact (planner_node_returns svc s st reply w' Hllm)|].
  split; [reflexivity|].
  split; [apply parse_plan_length|].
  pose proof (parse_plan_nil_iff reply) as Hnil.
  destruct (parse_plan reply) as [|q p]; simpl.
  - split; [lia|]. intros Hsp. destruct Hnil as [Hnil _].
    rewrite Hnil in Hsp; [discriminate | reflexivity].
  - split; [|lia]. intros _.
    destruct (all_space reply); [|reflexivity].
    destruct Hnil as [_ Hnil]. now specialize (Hnil eq_refl).
Qed.

(** The theorem at a three-line reply. *)
Lemma planner_plan_size_witness :
  exists (p : list string) (st' : St nat),
    planner_node all_fine (initial_state "solar") st0
      = (Returns (planner_update p), st') /\
    plan (merge (initial_state "solar") (planner_update p)) = p /\
    (length p <= 3)%nat /\
    ((1 <= length p)%nat
     <-> all_space ("alpha" ++ nl ++ "beta" ++ nl ++ "gamma") = false).
Proof.
  apply (planner_plan_size nat all_fine (initial_state "solar") st0
           ("alpha" ++ nl ++ "beta" ++ nl ++ "gamma") 1%nat).
  reflexivity.
Defined.

(** C3 as stated fails: for the non-empty topic [solar] and a model that
    answers with blanks, the planner returns the empty plan. *)
Lemma planner_plan_size_counterexample :
  truthy "solar" = true /\
  fst (planner_node blank_plan (initial_state "solar") st0)
    = Returns (planner_update []) /\
  plan (merge (initial_state "solar") (planner_update [])) = [] /\
  ~ (1 <= length (plan (merge (initial_state "solar") (planner_update []))))%nat.
Proof.
  repeat split. simpl. lia.
Qed.

(** C7, as amended. The plan is made of at most 3 queries; every query is
    one line of the trimmed reply, trimmed, is not empty, is its own
    trimming and holds no newline. Nothing is said about repeated
    queries: the planner keeps them. *)
Theorem planner_plan_entries :
  forall (W : Type) (svc : Services W) (s : AgentState) (st : St W)
         (reply : string) (w' : W),
  llm_invoke svc (planner_messages (topic s)) (world st)
    = (Returns reply, w') ->
  exists (p : list string) (st' : St W),
    planner_node svc s st = (Returns (planner_update p), st') /\
    p = firstn 3 (map strip (filter (fun line => truthy (strip line))
                                    (split nl_char (strip reply)))) /\
    (length p <= 3)%nat /\
    Forall (fun q =>
              q <> EmptyString /\ strip q = q /\
              mem_char nl_char q = false /\
              exists line, In line (split nl_char (strip reply)) /\
                           q = strip line) p.
Proof.
  intros W svc s st reply w' Hllm.
  exists (parse_plan reply). eexists.
  split; [exact (planner_node_returns svc s st reply w' Hllm)|].
  split; [reflexivity|].
  split; [apply parse_plan_length | apply parse_plan_entries].
Qed.

(** The theorem at a reply that repeats a query. *)
Lemma planner_plan_entries_witness :
  exists (p : list string) (st' : St nat),
    planner_node repeated_plan (initial_state "solar") st0
      = (Returns (planner_update p), st') /\
    p = firstn 3 (map strip
                      (filter (fun line => truthy (strip line))
                              (split nl_char
                                     (strip ("alpha" ++ nl ++ " alpha "))))) /\
    (length p <= 3)%nat /\
    Forall (fun q =>
              q <> EmptyString /\ strip q = q /\
              mem_char nl_char q = false /\
              exists line,
                In line (split nl_char (strip ("alpha" ++ nl ++ " alpha "))) /\
                q = strip line) p.
Proof.
  apply (planner_plan_entries nat repeated_plan (initial_state "solar") st0
           ("alpha" ++ nl ++ " alpha ") 1%nat).
  reflexivity.
Defined.

(** C7 as stated fails: when the model repeats a query, so does the plan;
    its two entries are equal after trimming. *)
Lemma planner_plan_entries_counterexample :
  fst (planner_node repeated_plan (initial_state "solar") st0)
    = Returns (planner_update ["alpha"; "alpha"]) /\
  ~ NoDup (map strip ["alpha"; "alpha"]).
Proof.
  split; [reflexivity|].
  intros H. inversion H as [|x l Hin _]; subst. apply Hin. now left.
Qed.

(** C4, at the failing input. The planner is run on a state that holds a
    summary: it returns the empty list for [summaries], which the reducer
    of that field concatenates to the stored list, so the stored summary
    is still there; the cursor is back at 0. *)
Theorem planner_keeps_summaries :
  exists (u : Update) (st' : St nat),
    planner_node all_fine used_state st0 = (Returns u, st') /\
    u_summaries u = Some [] /\
    current_query_index (merge used_state u) = 0%Z /\
    summaries (merge used_state u) = ["old summary"] /\
    fst (step all_fine planner used_state st0)
      = Returns (mkState "solar" ["alpha"; "beta"; "gamma"] 0
                         ["old summary"] EmptyString).
Proof.
  do 2 eexists. repeat split.
Qed.

(** ** Researcher *)

Section ResearcherOutcomes.

Context {W : Type}.
Variable svc : Services W.

(** With nothing scraped the researcher returns the fixed sentence and
    calls the model not at all. *)
Lemma research_node_nothing (s : AgentState) (st : St W) (query : string) :
  py_getitem (plan s) (current_query_index s) = Returns query ->
  fst (documents_for svc query (world st)) = [] ->
  exists st',
    research_node svc s st
    = (Returns (research_update (current_query_index s)
                                (no_content_summary query)), st') /\
    quiet st st'.
Proof.
  intros Hq Hdocs.
  destruct (research_node_eq svc s st query Hq) as [st2 [_ [Hquiet ->]]].
  rewrite Hdocs. simpl. now exists st2.
Qed.

(** When the model answers, the researcher returns. *)
Lemma research_node_responsive (s : AgentState) (st : St W) (query : string) :
  llm_responsive svc ->
  py_getitem (plan s) (current_query_index s) = Returns query ->
  exists summary st',
    research_node svc s st
    = (Returns (research_update (current_query_index s) summary), st').
Proof.
  intros Hllm Hq.
  destruct (research_node_eq svc s st query Hq) as [st2 [_ [_ ->]]].
  destruct (fst (documents_for svc query (world st))) as [|d ds].
  - simpl. eauto.
  - rewrite summarize_documents, invoke_llm_eq.
    destruct (Hllm [HumanMessage
                      (summary_prompt query
                         (join (nl ++ nl) (map document_entry (d :: ds))))]
                   (world st2)) as [r [w' ->]].
    cbn [fst snd]. eauto.
Qed.

(** Inside the plan, the only exception the researcher lets through is
    one the model raised. *)
Lemma research_node_raises (s : AgentState) (st st' : St W) query e :
  py_getitem (plan s) (current_query_index s) = Returns query ->
  research_node svc s st = (Raises e, st') ->
  exists msgs w w', llm_invoke svc msgs w = (Raises e, w').
Proof.
  intros Hq.
  destruct (research_node_eq svc s st query Hq) as [st2 [_ [_ ->]]].
  destruct (fst (documents_for svc query (world st))) as [|d ds].
  - simpl. discriminate.
  - rewrite summarize_documents, invoke_llm_eq.
    destruct (llm_invoke svc _ (world st2)) as [[r|e'] w'] eqn:Hllm;
      cbn [fst snd]; intros H; apply (f_equal fst) in H; cbn [fst] in H;
      [discriminate H | injection H as <-].
    eauto.
Qed.



End ResearcherOutcomes.

(** ** Whole runs *)

Section RunFacts.

Context {W : Type}.
Variable svc : Services W.

Lemma Forall2_eq_map {A B : Type} (f : A -> B) (l : list A) (l' : list B) :
  Forall2 (fun a b => b = f a) l l' -> l' = map f l.
Proof. induction 1; simpl; congruence. Qed.

Lemma Forall2_length_eq {A B : Type} (R : A -> B -> Prop) l l' :
  Forall2 R l l' -> length l' = length l.
Proof. induction 1; simpl; congruence. Qed.

Section Reaching.

Variable P : string -> string -> Prop.

Hypothesis researcher_returns :
  forall (s : AgentState) (st : St W) (query : string),
  py_getitem (plan s) (current_query_index s) = Returns query ->
  exists summary st',
    research_node svc s st
    = (Returns (research_update (current_query_index s) summary), st') /\
    P query summary.

(** A run whose planner gives a plan that is not empty enters the planner
    once, the researcher once for each query, and then the writer, once,
    with one summary for each query added to the state. The default limit
    on the number of steps is never reached. *)
Lemma invoke_reaches_writer (s0 : AgentState) (w : W) reply w1 :
  llm_invoke svc (planner_messages (topic s0)) w = (Returns reply, w1) ->
  parse_plan reply <> [] ->
  exists (added : list string) (visited : list AgentState) (st' : St W),
    Forall2 P (parse_plan reply) added /\
    length visited = length (parse_plan reply) /\
    invoke svc s0 (mkSt w [])
    = step svc writer
        (mkState (topic s0) (parse_plan reply)
                 (Z.of_nat (length (parse_plan reply)))
                 (summaries s0 ++ added) (final_report s0)) st' /\
    entered planner (log (snd (invoke svc s0 (mkSt w [])))) = [s0] /\
    entered researcher (log (snd (invoke svc s0 (mkSt w [])))) = visited /\
    entered writer (log (snd (invoke svc s0 (mkSt w []))))
    = [mkState (topic s0) (parse_plan reply)
               (Z.of_nat (length (parse_plan reply)))
               (summaries s0 ++ added) (final_report s0)].
Proof.
  intros Hllm Hne.
  destruct (run_with_plan svc P researcher_returns recursion_limit s0
              (mkSt w []) reply w1 Hllm Hne)
    as [added [visited [st' [Hrun [Hall [Hent Hlen]]]]]].
  { pose proof (parse_plan_length reply). unfold recursion_limit. lia. }
  exists added, visited, st'. unfold invoke, entry_point. rewrite Hrun.
  rewrite !entered_step. unfold entered. rewrite Hent, !entered_visited.
  simpl. rewrite app_nil_r. repeat split; assumption.
Qed.

End Reaching.

End RunFacts.

(* ================================================================== *)
(** * Part III, continued: the researcher *)
(* ================================================================== *)

(** C1, as amended. Take an invocation of the researcher at a cursor
    inside the plan, for the query at the cursor, whatever the search
    client and the extractor do. When no document was scraped, or when the
    summarization request of this invocation is answered, the invocation
    returns: merged into the state, its update moves the cursor forward by
    exactly 1 and appends exactly one summary (the fixed sentence, or the
    answer), and the equation between the number of summaries and the
    cursor is kept. When a document was scraped and the summarization
    request raises, the invocation raises the same exception and there is
    no update. *)
Theorem researcher_progress :
  forall (W : Type) (svc : Services W) (s : AgentState) (st : St W),
  in_bounds s ->
  exists query : string,
    py_getitem (plan s) (current_query_index s) = Returns query /\
    (forall summary : string,
       (fst (documents_for svc query (world st)) = [] /\
        summary = no_content_summary query) \/
       (fst (documents_for svc query (world st)) <> [] /\
        exists w3,
          llm_invoke svc (summary_request svc query (world st))
                     (summary_world svc query (world st))
          = (Returns summary, w3)) ->
       exists st' : St W,
         research_node svc s st
         = (Returns (research_update (current_query_index s) summary), st') /\
         fst (step svc researcher s st)
         = Returns (merge s (research_update (current_query_index s) summary))
         /\
         current_query_index
           (merge s (research_update (current_query_index s) summary))
         = (current_query_index s + 1)%Z /\
         summaries (merge s (research_update (current_query_index s) summary))
         = (summaries s ++ [summary])%list /\
         length (summaries
                   (merge s (research_update (current_query_index s) summary)))
         = S (length (summaries s)) /\
         (Z.of_nat (length (summaries s)) = current_query_index s ->
          Z.of_nat
            (length (summaries
               (merge s (research_update (current_query_index s) summary))))
          = current_query_index
              (merge s (research_update (current_query_index s) summary)))) /\
    (forall (e : exn) (w3 : W),
       fst (documents_for svc query (world st)) <> [] ->
       llm_invoke svc (summary_request svc query (world st))
                  (summary_world svc query (world st))
       = (Raises e, w3) ->
       fst (research_node svc s st) = Raises e /\
       fst (step svc researcher s st) = Raises e).
Proof.
  intros W svc s st Hs.
  destruct (py_getitem_in_bounds _ _ Hs) as [q [Hq _]].
  exists q. split; [exact Hq|].
  destruct (research_node_eq svc s st q Hq) as [st2 [Hw2 [_ Hnode]]].
  destruct (research_node_eq svc s
              (mkSt (world st) (EvEnter researcher s :: log st)) q Hq)
    as [st3 [Hw3 [_ Hentered]]].
  cbn [world] in Hw3, Hentered.
  rewrite step_eq. cbn [node_fn]. rewrite Hnode, Hentered.
  unfold summary_request, summary_world. rewrite <- Hw2.
  remember (fst (documents_for svc q (world st))) as docs eqn:Hdocs.
  clear Hnode Hentered Hdocs.
  assert (Hmerge : forall summary : string,
            current_query_index
              (merge s (research_update (current_query_index s) summary))
            = (current_query_index s + 1)%Z /\
            summaries
              (merge s (research_update (current_query_index s) summary))
            = (summaries s ++ [summary])%list /\
            length (summaries
                      (merge s (research_update (current_query_index s)
                                                summary)))
            = S (length (summaries s)) /\
            (Z.of_nat (length (summaries s)) = current_query_index s ->
             Z.of_nat
               (length (summaries
                  (merge s (research_update (current_query_index s) summary))))
             = current_query_index
                 (merge s (research_update (current_query_index s) summary)))).
  { intros summary. rewrite merge_research_update.
    cbn [current_query_index summaries].
    repeat split; rewrite ?length_app; cbn [length]; lia. }
  split.
  - intros summary [[-> ->]|[Hne [w3 Hcall]]].
    + cbn [map]. rewrite !summarize_nothing. exists st2.
      split; [reflexivity|]. split; [reflexivity | apply Hmerge].
    + destruct docs as [|d ds]; [contradiction|].
      rewrite !summarize_documents, !invoke_llm_eq.
      rewrite Hw3, <- Hw2, Hcall. cbn [fst snd]. eexists.
      split; [reflexivity|]. split; [reflexivity | apply Hmerge].
  - intros e w3 Hne Hcall.
    destruct docs as [|d ds]; [contradiction|].
    rewrite !summarize_documents, !invoke_llm_eq.
    rewrite Hw3, <- Hw2, Hcall. split; reflexivity.
Qed.

(** The theorem for one query: with a hit and a page with text, the
    answer of the model is appended; with pages that hold no text, the
    fixed sentence is appended although the model is down. *)
Lemma researcher_progress_witness :
  in_bounds one_query /\
  (exists st' : St nat,
     research_node all_fine one_query st0
     = (Returns (research_update 0 "S"), st') /\
     summaries (merge one_query (research_update 0 "S")) = ["S"]) /\
  (exists st' : St nat,
     research_node no_text one_query st0
     = (Returns (research_update 0 (no_content_summary "alpha")), st') /\
     current_query_index
       (merge one_query (research_update 0 (no_content_summary "alpha")))
     = 1%Z).
Proof.
  assert (Hb : in_bounds one_query) by (unfold in_bounds; cbn; lia).
  split; [exact Hb|]. split.
  - destruct (researcher_progress nat all_fine one_query st0 Hb)
      as [q [Hq [Hok _]]].
    injection Hq as <-.
    destruct (Hok "S") as [st' [Hnode [_ [_ [Hsum _]]]]].
    { right. split; [discriminate|]. eexists. reflexivity. }
    exists st'. split; [exact Hnode | exact Hsum].
  - destruct (researcher_progress nat no_text one_query st0 Hb)
      as [q [Hq [Hok _]]].
    injection Hq as <-.
    destruct (Hok (no_content_summary "alpha"))
      as [st' [Hnode [_ [Hcur _]]]].
    { left. split; reflexivity. }
    exists st'. split; [exact Hnode | exact Hcur].
Defined.

(** C1 as stated fails: the cursor is inside the plan, the search and the
    scraping succeed, and the model raises on the summarization request;
    the researcher raises and returns no update. *)
Lemma researcher_progress_counterexample :
  in_bounds one_query /\
  fst (research_node model_down one_query st0)
    = Raises (ServiceError "model") /\
  fst (step model_down researcher one_query st0)
    = Raises (ServiceError "model").
Proof.
  split; [unfold in_bounds; simpl; lia | split; reflexivity].
Qed.

(** C5, as amended. When no document is scraped for the query at the
    cursor, the researcher returns without calling the model, and the
    summary it appends is the fixed sentence
    [No detailed information could be scraped for the query: ] followed by
    the query; the graph goes on to the next node. When no document can be
    scraped for any query, a run whose plan is not empty enters the writer
    with that sentence as the summary of every query. *)
Theorem nothing_scraped_summary :
  forall (W : Type) (svc : Services W),
  (forall (s : AgentState) (st : St W) (query : string),
     py_getitem (plan s) (current_query_index s) = Returns query ->
     fst (documents_for svc query (world st)) = [] ->
     exists st' : St W,
       research_node svc s st
       = (Returns (research_update (current_query_index s)
                     ("No detailed information could be scraped for the query: "
                      ++ query)), st') /\
       llm_calls (log st') = llm_calls (log st) /\
       forall k : nat,
       exists st'' : St W,
         run_from svc (S k) researcher s st
         = run_from svc k
             (if (current_query_index s + 1 <? Z.of_nat (length (plan s)))%Z
              then researcher else writer)
             (mkState (topic s) (plan s) (current_query_index s + 1)
                      (summaries s ++ [no_content_summary query])
                      (final_report s))
             st'') /\
  (nothing_scraped svc ->
   forall (s0 : AgentState) (w : W) (reply : string) (w1 : W),
     llm_invoke svc (planner_messages (topic s0)) w = (Returns reply, w1) ->
     parse_plan reply <> [] ->
     entered writer (log (snd (invoke svc s0 (mkSt w []))))
     = [mkState (topic s0) (parse_plan reply)
                (Z.of_nat (length (parse_plan reply)))
                (summaries s0 ++ map no_content_summary (parse_plan reply))
                (final_report s0)]).
Proof.
  intros W svc. split.
  - intros s st query Hq Hdocs.
    destruct (research_node_nothing svc s st query Hq Hdocs)
      as [st' [Hnode [Hllm _]]].
    exists st'. split; [exact Hnode|]. split; [exact Hllm|].
    intros k.
    destruct (research_node_nothing svc s
                (mkSt (world st) (EvEnter researcher s :: log st)) query
                Hq Hdocs) as [st'' [Hnode' _]].
    exists st''. rewrite run_from_succ, step_eq. simpl node_fn.
    rewrite Hnode', merge_research_update.
    unfold edges, manager_logic. simpl.
    now destruct (_ <? _)%Z.
  - intros Hnone s0 w reply w1 Hllm Hne.
    destruct (invoke_reaches_writer svc
                (fun query summary => summary = no_content_summary query))
      with (s0 := s0) (w := w) (reply := reply) (w1 := w1)
      as [added [visited [st' [Hall [_ [_ [_ [_ Hw]]]]]]]]; try assumption.
    + intros s st query Hq.
      destruct (research_node_nothing svc s st query Hq (Hnone _ _))
        as [st' [Hnode _]].
      now exists (no_content_summary query), st'.
    + rewrite Hw. now rewrite (Forall2_eq_map _ _ _ Hall).
Qed.

(** The theorem with a search client that is down. *)
Lemma nothing_scraped_summary_witness :
  fst (research_node search_down one_query st0)
  = Returns (research_update 0
      "No detailed information could be scraped for the query: alpha") /\
  entered writer (log (snd (invoke search_down (initial_state "solar") st0)))
  = [mkState "solar" ["alpha"; "beta"] 2
       ["No detailed information could be scraped for the query: alpha";
        "No detailed information could be scraped for the query: beta"]
       EmptyString].
Proof.
  destruct (nothing_scraped_summary nat search_down) as [Hnode Hrun].
  split.
  - destruct (Hnode one_query st0 "alpha" eq_refl eq_refl) as [st' [H _]].
    rewrite H. reflexivity.
  - apply (Hrun (fun query w => eq_refl) (initial_state "solar") 0%nat
             ("alpha" ++ nl ++ "beta") 1%nat eq_refl).
    discriminate.
Defined.

(** C5 as stated fails: with the search client down, the summary appended
    for the query [alpha] is not the sentence the claim quotes. *)
Lemma nothing_scraped_summary_counterexample :
  fst (documents_for search_down "alpha" 0%nat) = [] /\
  fst (step search_down researcher one_query st0)
  = Returns (mkState "solar" ["alpha"] 1
       ["No detailed information could be scraped for the query: alpha"]
       EmptyString) /\
  "No detailed information could be scraped for the query: alpha"
  <> "no information found for: alpha".
Proof.
  repeat split. discriminate.
Qed.

(** C6. Failures of the search client and of the extractor are absorbed
    where they happen. (1) The search step never raises: a failure or an
    empty answer of the client leaves zero results. (2) One turn of the
    scraping loop never raises: a fetch that raises or gives nothing, and
    an extraction that raises or gives nothing, leave the scraped texts as
    they were, and the loop goes on with the results that follow.
    (3) The loop over the results never raises. (4) Inside the plan, an
    exception that leaves the researcher was raised by the model.
    (5) With a model that answers, a run whose plan is not empty enters
    the writer after one researcher invocation for each query. *)
Theorem skip_and_continue :
  forall (W : Type) (svc : Services W),
  (forall (query : string) (st : St W),
     exists (hits : list SearchResult) (st' : St W),
       search_step svc query st = (Returns hits, st') /\
       (forall e w1,
          ddgs_text svc query 3 (world st) = (Raises e, w1) -> hits = []) /\
       (forall l w1,
          ddgs_text svc query 3 (world st) = (Returns l, w1) -> hits = l)) /\
  (forall (r : SearchResult) (acc : list string) (st : St W),
     exists (acc' : list string) (st' : St W),
       scrape_one svc r acc st = (Returns acc', st') /\
       (acc' = acc \/
        exists t, acc' = (acc ++ [scraped_entry (href r) t])%list) /\
       (forall e w1,
          fetch_url svc (href r) (world st) = (Raises e, w1) -> acc' = acc) /\
       (forall o w1,
          fetch_url svc (href r) (world st) = (Returns o, w1) ->
          truthy_opt o = false -> acc' = acc) /\
       (forall page w1 e w2,
          fetch_url svc (href r) (world st) = (Returns (Some page), w1) ->
          truthy page = true ->
          extract svc page w1 = (Raises e, w2) -> acc' = acc) /\
       (forall page w1 o w2,
          fetch_url svc (href r) (world st) = (Returns (Some page), w1) ->
          truthy page = true ->
          extract svc page w1 = (Returns o, w2) ->
          truthy_opt o = false -> acc' = acc) /\
       (forall rest,
          scrape_loop svc (r :: rest) acc st = scrape_loop svc rest acc' st')) /\
  (forall (hits : list SearchResult) (acc : list string) (st : St W),
     exists (texts : list string) (st' : St W),
       scrape_loop svc hits acc st = (Returns texts, st')) /\
  (forall (s : AgentState) (st st' : St W) (query : string) (e : exn),
     py_getitem (plan s) (current_query_index s) = Returns query ->
     research_node svc s st = (Raises e, st') ->
     exists msgs w w', llm_invoke svc msgs w = (Raises e, w')) /\
  (llm_responsive svc ->
   forall (s0 : AgentState) (w : W) (reply : string) (w1 : W),
     llm_invoke svc (planner_messages (topic s0)) w = (Returns reply, w1) ->
     parse_plan reply <> [] ->
     exists s_w : AgentState,
       entered writer (log (snd (invoke svc s0 (mkSt w [])))) = [s_w] /\
       length (summaries s_w)
       = (length (summaries s0) + length (parse_plan reply))%nat /\
       length (entered researcher (log (snd (invoke svc s0 (mkSt w [])))))
       = length (parse_plan reply)).
Proof.
  intros W svc. repeat apply conj.
  - intros query st. do 2 eexists. split; [apply search_step_eq|].
    unfold search_hits. split; intros ? ? ->; reflexivity.
  - intros r acc st.
    destruct (scrape_one_eq svc r acc st) as [st' [Hone _]].
    do 2 eexists. split; [exact Hone|].
    unfold fetch_and_extract. repeat apply conj.
    + destruct (fst _); eauto.
    + intros e w1 ->. reflexivity.
    + intros o w1 -> Ho. destruct o as [page|]; [|reflexivity].
      simpl in Ho. now rewrite Ho.
    + intros page w1 e w2 -> -> ->. reflexivity.
    + intros page w1 o w2 -> -> -> Ho. destruct o as [t|]; [|reflexivity].
      simpl in Ho. now rewrite Ho.
    + intros rest. simpl. now rewrite (bind_returns _ _ _ _ _ Hone).
  - intros hits acc st.
    destruct (scrape_loop_eq svc hits acc st) as [st' [H _]]. eauto.
  - intros s st st' query e. apply research_node_raises.
  - intros Hllm s0 w reply w1 Hreply Hne.
    destruct (invoke_reaches_writer svc (fun _ _ => True))
      with (s0 := s0) (w := w) (reply := reply) (w1 := w1)
      as [added [visited [st' [Hall [Hlen [_ [_ [Hr Hw]]]]]]]];
      try assumption.
    + intros s st query Hq.
      destruct (research_node_responsive svc s st query Hllm Hq)
        as [sm [st' H]]. eauto.
    + eexists. split; [exact Hw|]. simpl.
      rewrite length_app, (Forall2_length_eq _ _ _ Hall), Hr. auto.
Qed.

(** The theorem with an extractor that finds no text: two hits, both
    skipped, and the run still reaches the writer. *)
Lemma skip_and_continue_witness :
  fst (scrape_loop no_text [hit "http://a"; hit "http://b"] [] st0)
  = Returns [] /\
  fst (research_node no_text one_query st0)
  = Returns (research_update 0 (no_content_summary "alpha")) /\
  length (entered researcher
            (log (snd (invoke all_fine (initial_state "solar") st0))))
  = 3%nat.
Proof.
  destruct (skip_and_continue nat no_text) as [_ [Hone [_ [_ _]]]].
  destruct (skip_and_continue nat all_fine) as [_ [_ [_ [_ Hrun]]]].
  repeat apply conj.
  - destruct (Hone (hit "http://a") [] st0)
      as [acc1 [st1 [H1 [_ [_ [_ [_ [Hskip1 Hrest1]]]]]]]].
    rewrite Hrest1.
    rewrite (Hskip1 "<html>" 1%nat None 2%nat eq_refl eq_refl eq_refl eq_refl).
    destruct (Hone (hit "http://b") [] st1)
      as [acc2 [st2 [H2 [_ [_ [_ [_ [Hskip2 Hrest2]]]]]]]].
    rewrite Hrest2.
    assert (Hw : world st1 = 2%nat)
      by (change st1 with (snd (Returns acc1, st1)); now rewrite <- H1).
    rewrite (Hskip2 "<html>" (S (world st1)) None (S (S (world st1)))
               eq_refl eq_refl eq_refl eq_refl).
    reflexivity.
  - reflexivity.
  - destruct (Hrun (fun msgs w =>
                      if is_planning msgs as b
                        return exists r w',
                                 ((if b then
                                     Returns ("alpha" ++ nl ++ "beta" ++ nl
                                              ++ "gamma")
                                   else Returns "S"), S w) = (Returns r, w')
                      then ex_intro _ _ (ex_intro _ _ eq_refl)
                      else ex_intro _ _ (ex_intro _ _ eq_refl))
                   (initial_state "solar") 0%nat
                   ("alpha" ++ nl ++ "beta" ++ nl ++ "gamma") 1%nat eq_refl)
      as [s_w [_ [_ Hn]]]; [discriminate|].
    exact Hn.
Defined.



(* ================================================================== *)
(** * Part III, continued: the graph *)
(* ================================================================== *)

Section NodeUpdates.

Context {W : Type}.
Variable svc : Services W.

Lemma planner_node_update (s : AgentState) (st st' : St W) (u : Update) :
  planner_node svc s st = (Returns u, st') ->
  exists p, u = planner_update p.
Proof.
  unfold planner_node, bind. rewrite invoke_llm_eq.
  destruct (llm_invoke svc _ (world st)) as [[r|e] w']; simpl; intros H;
    inversion H. eauto.
Qed.

Lemma research_node_update (s : AgentState) (st st' : St W) (u : Update) :
  research_node svc s st = (Returns u, st') ->
  exists summary, u = research_update (current_query_index s) summary.
Proof.
  destruct (py_getitem (plan s) (current_query_index s)) as [q|e] eqn:Hq.
  - destruct (research_node_eq svc s st q Hq) as [st2 [_ [_ ->]]].
    destruct (summarize svc q _ st2) as [[sm|e] st3]; intros H;
      inversion H. eauto.
  - rewrite (research_node_index_error svc s st e Hq). discriminate.
Qed.

Lemma writer_node_update (s : AgentState) (st st' : St W) (u : Update) :
  writer_node svc s st = (Returns u, st') ->
  exists report, u = writer_update report.
Proof.
  rewrite writer_node_eq.
  destruct (llm_invoke svc _ (world st)) as [[r|e] w']; intros H;
    inversion H. eauto.
Qed.

End NodeUpdates.

(** C9. Each node writes the fields it owns and no other. The planner's
    update has no key for the topic and the report, and leaves them as
    they are. The researcher's update has no key for the topic, the plan
    and the report: it appends one summary and moves the cursor by one.
    The writer's update has the report as its only key. The topic at the
    end of a run is the topic it started with. *)
Theorem field_ownership :
  forall (W : Type) (svc : Services W) (s : AgentState) (st : St W),
  (forall u st',
     planner_node svc s st = (Returns u, st') ->
     u_topic u = None /\ u_final_report u = None /\
     topic (merge s u) = topic s /\
     final_report (merge s u) = final_report s) /\
  (forall u st',
     research_node svc s st = (Returns u, st') ->
     u_topic u = None /\ u_plan u = None /\ u_final_report u = None /\
     topic (merge s u) = topic s /\
     plan (merge s u) = plan s /\
     final_report (merge s u) = final_report s /\
     current_query_index (merge s u) = (current_query_index s + 1)%Z /\
     exists summary, summaries (merge s u) = (summaries s ++ [summary])%list) /\
  (forall u st',
     writer_node svc s st = (Returns u, st') ->
     u_topic u = None /\ u_plan u = None /\
     u_current_query_index u = None /\ u_summaries u = None /\
     topic (merge s u) = topic s /\
     plan (merge s u) = plan s /\
     current_query_index (merge s u) = current_query_index s /\
     summaries (merge s u) = summaries s) /\
  (forall fuel n s' st',
     run_from svc fuel n s st = (Returns s', st') -> topic s' = topic s).
Proof.
  intros W svc s st. repeat apply conj.
  - intros u st' H. apply planner_node_update in H as [p ->].
    repeat split.
  - intros u st' H. apply research_node_update in H as [sm ->].
    repeat split. now exists sm.
  - intros u st' H. apply writer_node_update in H as [r ->].
    repeat split.
  - intros fuel n s' st'. apply run_from_topic.
Qed.

(** The theorem on a state that holds a plan and a summary. *)
Lemma field_ownership_witness :
  topic (merge used_state (planner_update ["alpha"; "beta"; "gamma"]))
  = "solar" /\
  plan (merge used_state (writer_update "S")) = ["old query"] /\
  summaries (merge used_state (writer_update "S")) = ["old summary"].
Proof.
  destruct (field_ownership nat all_fine used_state st0)
    as [Hp [_ [Hw _]]].
  destruct (Hp (planner_update ["alpha"; "beta"; "gamma"])
               (mkSt 1%nat
                  [EvLLM (planner_messages "solar")]) eq_refl)
    as [_ [_ [Ht _]]].
  destruct (Hw (writer_update "S")
               (snd (writer_node all_fine used_state st0)) eq_refl)
    as [_ [_ [_ [_ [_ [Hplan [_ Hsum]]]]]]].
  repeat split; assumption.
Defined.

(** C10. In a run whose planner stores a plan that is not empty, every
    state in which the researcher is entered holds that plan and a cursor
    inside it, so that [plan[index]] returns a query. The condition on the
    plan is needed: the edge from the planner to the researcher has no
    condition, so with an empty plan the researcher is entered once, at
    cursor 0, and the indexing raises [IndexError]. *)
Theorem researcher_index_in_bounds :
  forall (W : Type) (svc : Services W) (s0 : AgentState) (w : W)
         (reply : string) (w1 : W),
  llm_invoke svc (planner_messages (topic s0)) w = (Returns reply, w1) ->
  (parse_plan reply <> [] ->
   Forall (fun s =>
             plan s = parse_plan reply /\
             (0 <= current_query_index s < Z.of_nat (length (plan s)))%Z /\
             exists query,
               py_getitem (plan s) (current_query_index s) = Returns query)
          (entered researcher (log (snd (invoke svc s0 (mkSt w [])))))) /\
  (parse_plan reply = [] ->
   exists s1 : AgentState,
     entered researcher (log (snd (invoke svc s0 (mkSt w [])))) = [s1] /\
     plan s1 = [] /\ current_query_index s1 = 0%Z /\
     py_getitem (plan s1) (current_query_index s1) = Raises IndexError /\
     fst (invoke svc s0 (mkSt w [])) = Raises IndexError).
Proof.
  intros W svc s0 w reply w1 Hllm.
  unfold invoke, entry_point. change recursion_limit with (S (S 23)).
  rewrite run_from_succ, step_eq. cbn [node_fn world log].
  rewrite (planner_node_returns svc s0
             (mkSt w (EvEnter planner s0 :: [])) reply w1 Hllm).
  rewrite merge_planner_update. cbn [edges log].
  set (s1 := mkState (topic s0) (parse_plan reply) 0 (summaries s0)
                     (final_report s0)).
  set (st1 := mkSt w1 _).
  split.
  - intros Hne.
    assert (Hs1 : in_bounds s1).
    { unfold in_bounds, s1. simpl.
      destruct (parse_plan reply); [contradiction | simpl; lia]. }
    pose proof (researcher_safe svc (parse_plan reply) (S 23) s1 st1
                  eq_refl Hs1 (Forall_nil _)) as Hsafe.
    eapply Forall_impl; [|exact Hsafe].
    intros s [Hp Hin]. split; [exact Hp|]. split; [exact Hin|].
    destruct (py_getitem_in_bounds _ _ Hin) as [q [Hq _]]. now exists q.
  - intros Hnil. exists s1.
    assert (Hidx : py_getitem (plan s1) (current_query_index s1)
                   = Raises IndexError)
      by (unfold s1; simpl; rewrite Hnil; apply py_getitem_nil).
    rewrite run_from_succ, step_eq. cbn [node_fn].
    rewrite (research_node_index_error svc s1 _ IndexError Hidx).
    cbn [fst snd log world]. unfold entered. cbn [entries].
    repeat split; try assumption; reflexivity.
Qed.

(** The theorem for a three-line plan. *)
Lemma researcher_index_in_bounds_witness :
  Forall (fun s =>
            plan s = ["alpha"; "beta"; "gamma"] /\
            (0 <= current_query_index s < Z.of_nat (length (plan s)))%Z /\
            exists query,
              py_getitem (plan s) (current_query_index s) = Returns query)
         (entered researcher
                  (log (snd (invoke all_fine (initial_state "solar") st0)))).
Proof.
  apply (researcher_index_in_bounds nat all_fine (initial_state "solar")
           0%nat ("alpha" ++ nl ++ "beta" ++ nl ++ "gamma") 1%nat eq_refl).
  discriminate.
Defined.

(** C2, at the failing input. The model answers the planning request with
    blanks, so the plan is empty: the claim has the researcher run 0 times
    and the writer entered. The run enters the planner, then the
    researcher, once, where [plan[0]] raises [IndexError]; the writer is
    never entered. *)
Theorem empty_plan_run :
  fst (planner_node blank_plan (initial_state "solar") st0)
  = Returns (planner_update []) /\
  fst (invoke blank_plan (initial_state "solar") st0) = Raises IndexError /\
  map fst (rev (entries (log (snd (invoke blank_plan (initial_state "solar")
                                          st0)))))
  = [planner; researcher] /\
  entered researcher (log (snd (invoke blank_plan (initial_state "solar") st0)))
  = [mkState "solar" [] 0 [] EmptyString] /\
  entered writer (log (snd (invoke blank_plan (initial_state "solar") st0)))
  = [].
Proof.
  repeat split.
Qed.

(* ================================================================== *)
(** * Part IV: further properties of the program *)
(* ================================================================== *)

(** ** Strings, continued *)

Module PyStrMore.

Lemma append_assoc (a b c : string) : (a ++ b) ++ c = a ++ b ++ c.
Proof. induction a as [|x a IH]; simpl; [reflexivity | now rewrite IH]. Qed.

Lemma append_nil_r (a : string) : a ++ EmptyString = a.
Proof. induction a as [|x a IH]; simpl; [reflexivity | now rewrite IH]. Qed.

Lemma occurs_in_refl (x : string) : occurs_in x x.
Proof. exists EmptyString, EmptyString. simpl. now rewrite append_nil_r. Qed.

Lemma occurs_in_app_r (x a b : string) : occurs_in x b -> occurs_in x (a ++ b).
Proof.
  intros [pre [post ->]]. exists (a ++ pre), post. now rewrite append_assoc.
Qed.

Lemma occurs_in_app_l (x a b : string) : occurs_in x a -> occurs_in x (a ++ b).
Proof.
  intros [pre [post ->]]. exists pre, (post ++ b).
  now rewrite !append_assoc.
Qed.

(** Every part of a joined text occurs in it. *)
Lemma occurs_in_join (sep x : string) (parts : list string) :
  In x parts -> occurs_in x (join sep parts).
Proof.
  induction parts as [|y parts IH]; [contradiction|].
  intros [->|Hin].
  - destruct parts as [|z parts]; [apply occurs_in_refl|].
    change (join sep (x :: z :: parts)) with (x ++ sep ++ join sep (z :: parts)).
    apply occurs_in_app_l, occurs_in_refl.
  - destruct parts as [|z parts]; [contradiction|].
    change (join sep (y :: z :: parts)) with (y ++ sep ++ join sep (z :: parts)).
    now apply occurs_in_app_r, occurs_in_app_r, IH.
Qed.

(** Trimming on the right leaves alone what is before a text that does
    not trim to nothing. *)
Lemma rstrip_app (a b : string) :
  rstrip b <> EmptyString -> rstrip (a ++ b) = a ++ rstrip b.
Proof.
  intros Hb. induction a as [|c a IH]; [reflexivity|].
  simpl. rewrite IH. destruct (a ++ rstrip b) as [|d r] eqn:Hab;
    [|reflexivity].
  destruct a; simpl in Hab; [contradiction | discriminate].
Qed.

(** A text that is its own trimming and is not empty starts with a
    visible character and is its own trimming on the right. *)
Lemma strip_fixed_parts (q : string) :
  strip q = q -> starts_visible q /\ rstrip q = q.
Proof.
  intros H.
  assert (Hv : starts_visible q).
  { rewrite <- H. apply rstrip_starts_visible, lstrip_starts_visible. }
  split; [exact Hv|].
  unfold strip in H. now rewrite (lstrip_fixed q Hv) in H.
Qed.

Lemma starts_visible_app (a b : string) :
  a <> EmptyString -> starts_visible a -> starts_visible (a ++ b).
Proof. destruct a; simpl; [contradiction | trivial]. Qed.

Lemma app_not_empty (a b : string) :
  a <> EmptyString -> a ++ b <> EmptyString.
Proof. destruct a; simpl; [contradiction | discriminate]. Qed.

(** Joining texts that are trimmed and not empty gives a trimmed text. *)
Lemma strip_join (sep : string) (parts : list string) :
  Forall (fun q => q <> EmptyString /\ strip q = q) parts ->
  strip (join sep parts) = join sep parts.
Proof.
  intros Hall.
  assert (Hr : rstrip (join sep parts) = join sep parts /\
               (parts <> [] -> join sep parts <> EmptyString)).
  { induction Hall as [|q rest [Hne Hq] Hrest [IHr IHne]].
    - split; [reflexivity | congruence].
    - destruct rest as [|q' rest].
      + split; [apply strip_fixed_parts, Hq | intros _; exact Hne].
      + change (join sep (q :: q' :: rest))
          with (q ++ sep ++ join sep (q' :: rest)).
        split; [|intros _; now apply app_not_empty].
        rewrite <- append_assoc, rstrip_app, IHr; [reflexivity|].
        rewrite IHr. apply IHne. discriminate. }
  unfold strip. rewrite lstrip_fixed; [apply Hr|].
  destruct Hall as [|q rest [Hne Hq] _]; [exact I|].
  destruct rest as [|q' rest]; [apply strip_fixed_parts, Hq|].
  change (join sep (q :: q' :: rest)) with (q ++ sep ++ join sep (q' :: rest)).
  apply starts_visible_app; [exact Hne | apply strip_fixed_parts, Hq].
Qed.

(** Splitting undoes joining, when no part holds the separator. *)
Lemma split_without_sep (sep : ascii) (q : string) :
  mem_char sep q = false -> split sep q = [q].
Proof.
  induction q as [|c q IH]; simpl; [reflexivity|]. intros H.
  apply orb_false_iff in H as [Hc Hq]. rewrite Hc, (IH Hq). reflexivity.
Qed.

Lemma split_app_sep (sep : ascii) (q rest : string) :
  mem_char sep q = false ->
  split sep (q ++ String sep rest) = q :: split sep rest.
Proof.
  induction q as [|c q IH]; simpl; intros H.
  - now rewrite Ascii.eqb_refl.
  - apply orb_false_iff in H as [Hc Hq]. rewrite Hc, (IH Hq). reflexivity.
Qed.

Lemma split_join (sep : ascii) (parts : list string) :
  parts <> [] ->
  Forall (fun q => mem_char sep q = false) parts ->
  split sep (join (String sep EmptyString) parts) = parts.
Proof.
  intros Hne Hall. induction Hall as [|q rest Hq Hrest IH]; [congruence|].
  destruct rest as [|q' rest]; [now apply split_without_sep|].
  change (join (String sep EmptyString) (q :: q' :: rest))
    with (q ++ String sep (join (String sep EmptyString) (q' :: rest))).
  rewrite (split_app_sep sep q _ Hq), IH; [reflexivity | discriminate].
Qed.

End PyStrMore.

Import PyStrMore.

(** ** Planner, continued *)

Lemma filter_all {A : Type} (f : A -> bool) (l : list A) :
  Forall (fun x => f x = true) l -> filter f l = l.
Proof.
  induction 1 as [|x l Hx _ IH]; simpl; [reflexivity|]. now rewrite Hx, IH.
Qed.

Lemma map_fixed {A : Type} (f : A -> A) (l : list A) :
  Forall (fun x => f x = x) l -> map f l = l.
Proof.
  induction 1 as [|x l Hx _ IH]; simpl; [reflexivity|]. now rewrite Hx, IH.
Qed.

(** X1. A plan written back one query per line parses to itself: parsing
    the reply normalizes it, and the normal form is stable. *)
Theorem parse_plan_round_trip :
  forall reply : string,
  parse_plan (join nl (parse_plan reply)) = parse_plan reply.
Proof.
  intros reply.
  pose proof (parse_plan_entries reply) as Hall.
  pose proof (parse_plan_length reply) as Hlen.
  destruct (parse_plan reply) as [|q rest] eqn:Hp; [reflexivity|].
  rewrite <- Hp in *. set (p := parse_plan reply) in *.
  assert (Hne : p <> []) by (rewrite Hp; discriminate).
  unfold parse_plan at 1. fold p.
  rewrite strip_join
    by (eapply Forall_impl; [|exact Hall]; simpl; intros a H; tauto).
  unfold nl. rewrite split_join;
    [| exact Hne
     | eapply Forall_impl; [|exact Hall]; simpl; intros a H; tauto].
  rewrite filter_all.
  - rewrite map_fixed, firstn_all2; [reflexivity | exact Hlen |].
    eapply Forall_impl; [|exact Hall]. simpl. intros a H. tauto.
  - eapply Forall_impl; [|exact Hall]. simpl. intros a [Ha [Hs _]].
    rewrite Hs. now apply truthy_true.
Qed.

(** ** Writer, continued *)

(** X2. The writer asks the model exactly once, with a prompt in which the
    topic and every summary occur. When the model answers, the answer
    becomes the final report and nothing else of the state changes; when
    the model raises, the writer raises the same exception. *)
Theorem writer_reports :
  forall (W : Type) (svc : Services W) (s : AgentState) (st : St W),
  occurs_in (topic s)
    (writer_prompt (topic s) (join summaries_separator (summaries s))) /\
  (forall x, In x (summaries s) ->
     occurs_in x
       (writer_prompt (topic s) (join summaries_separator (summaries s)))) /\
  llm_calls (log (snd (writer_node svc s st)))
  = [HumanMessage
       (writer_prompt (topic s) (join summaries_separator (summaries s)))]
    :: llm_calls (log st) /\
  (forall report w',
     llm_invoke svc
       [HumanMessage
          (writer_prompt (topic s) (join summaries_separator (summaries s)))]
       (world st) = (Returns report, w') ->
     fst (step svc writer s st)
     = Returns (mkState (topic s) (plan s) (current_query_index s)
                        (summaries s) report)) /\
  (forall e w',
     llm_invoke svc
       [HumanMessage
          (writer_prompt (topic s) (join summaries_separator (summaries s)))]
       (world st) = (Raises e, w') ->
     fst (step svc writer s st) = Raises e).
Proof.
  intros W svc s st. repeat apply conj.
  - unfold writer_prompt. apply occurs_in_app_r, occurs_in_app_l.
    apply occurs_in_refl.
  - intros x Hin. unfold writer_prompt.
    do 7 apply occurs_in_app_r. apply occurs_in_app_l.
    now apply occurs_in_join.
  - rewrite writer_node_eq.
    destruct (llm_invoke svc _ (world st)) as [[r|e] w']; reflexivity.
  - intros report w' H. rewrite step_eq. cbn [node_fn].
    rewrite writer_node_eq. cbn [world]. rewrite H. reflexivity.
  - intros e w' H. rewrite step_eq. cbn [node_fn].
    rewrite writer_node_eq. cbn [world]. rewrite H. reflexivity.
Qed.

(** ** Researcher, continued *)

Section ResearcherTrace.

Context {W : Type}.
Variable svc : Services W.

(** One turn of the scraping loop fetches the URL of its hit, once, and
    searches nothing. *)
Lemma scrape_one_trace (r : SearchResult) (acc : list string) (st : St W) :
  searches (log (snd (scrape_one svc r acc st))) = searches (log st) /\
  fetches (log (snd (scrape_one svc r acc st)))
  = href r :: fetches (log st).
Proof.
  unfold scrape_one, try_except, bind, call, ret.
  destruct (fetch_url svc (href r) (world st)) as [[[page|]|e] w1];
    cbn [fst snd log world]; try (split; reflexivity).
  destruct (truthy page); cbn [fst snd log world]; try (split; reflexivity).
  destruct (extract svc page w1) as [[[t|]|e] w2];
    cbn [fst snd log world]; try (split; reflexivity).
  destruct (truthy t); split; reflexivity.
Qed.

Lemma scrape_loop_trace (rs : list SearchResult) :
  forall (acc : list string) (st : St W),
  searches (log (snd (scrape_loop svc rs acc st))) = searches (log st) /\
  fetches (log (snd (scrape_loop svc rs acc st)))
  = (rev (map href rs) ++ fetches (log st))%list.
Proof.
  induction rs as [|r rs IH]; intros acc st; [split; reflexivity|].
  destruct (scrape_one_eq svc r acc st) as [st1 [Hone _]].
  destruct (scrape_one_trace r acc st) as [Hs1 Hf1].
  rewrite Hone in Hs1, Hf1. cbn [snd] in Hs1, Hf1.
  cbn [scrape_loop]. rewrite (bind_returns _ _ _ _ _ Hone).
  destruct (IH (match fst (fetch_and_extract svc (href r) (world st)) with
                | Some t => (acc ++ [scraped_entry (href r) t])%list
                | None => acc
                end) st1) as [Hs Hf].
  rewrite Hs, Hf, Hs1, Hf1. split; [reflexivity|].
  cbn [map rev]. now rewrite <- app_assoc.
Qed.

(** What the researcher asks of the search client and of the extractor. *)
Lemma research_node_trace (s : AgentState) (st : St W) (query : string) :
  py_getitem (plan s) (current_query_index s) = Returns query ->
  searches (log (snd (research_node svc s st)))
  = (query, 3%Z) :: searches (log st) /\
  fetches (log (snd (research_node svc s st)))
  = (rev (map href (fst (search_hits svc query (world st))))
     ++ fetches (log st))%list.
Proof.
  intros Hq. unfold research_node.
  rewrite (bind_returns _ _ st query st) by (unfold lift; now rewrite Hq).
  rewrite (bind_returns _ _ _ _ _ (search_step_eq svc query st)).
  set (hits := fst (search_hits svc query (world st))).
  set (st1 := mkSt _ _).
  destruct (scrape_loop_eq svc hits [] st1) as [st2 [Hloop _]].
  destruct (scrape_loop_trace hits [] st1) as [Hs Hf].
  rewrite Hloop in Hs, Hf. cbn [snd] in Hs, Hf.
  rewrite (bind_returns _ _ _ _ _ Hloop).
  unfold summarize. unfold bind, ret.
  destruct (truthy _).
  - rewrite invoke_llm_eq.
    destruct (llm_invoke svc _ (world st2)) as [[r|e] w'];
      cbn [fst snd log searches fetches]; now rewrite Hs, Hf.
  - cbn [snd]. now rewrite Hs, Hf.
Qed.

End ResearcherTrace.

(** X3. For the query at the cursor the researcher searches exactly once,
    for that query and at most 3 results, and then fetches the URL of
    every hit exactly once, in the order of the hits, whether or not the
    earlier fetches and extractions failed. (The lists of the log are
    newest first.) *)
Theorem researcher_requests :
  forall (W : Type) (svc : Services W) (s : AgentState) (st : St W)
         (query : string),
  py_getitem (plan s) (current_query_index s) = Returns query ->
  searches (log (snd (research_node svc s st)))
  = (query, 3%Z) :: searches (log st) /\
  rev (fetches (log (snd (research_node svc s st))))
  = (rev (fetches (log st))
     ++ map href (fst (search_hits svc query (world st))))%list.
Proof.
  intros W svc s st query Hq.
  destruct (research_node_trace svc s st query Hq) as [Hs Hf].
  split; [exact Hs|]. rewrite Hf, rev_app_distr, rev_involutive. reflexivity.
Qed.

(** The theorem with two hits whose pages hold no text. *)
Lemma researcher_requests_witness :
  searches (log (snd (research_node no_text one_query st0)))
  = [("alpha", 3%Z)] /\
  rev (fetches (log (snd (research_node no_text one_query st0))))
  = [Some "http://a"; Some "http://b"].
Proof.
  exact (researcher_requests nat no_text one_query st0 "alpha" eq_refl).
Defined.

(** ** Whole runs, continued *)

Section RunBounds.

Context {W : Type}.
Variable svc : Services W.

Lemma step_planner_returns (s s' : AgentState) (st st' : St W) :
  step svc planner s st = (Returns s', st') ->
  exists reply,
    s' = mkState (topic s) (parse_plan reply) 0 (summaries s)
                 (final_report s).
Proof.
  rewrite step_eq. cbn [node_fn]. unfold planner_node, bind.
  rewrite invoke_llm_eq.
  destruct (llm_invoke svc _ _) as [[r|e] w']; cbn [fst snd ret];
    intros H; apply (f_equal fst) in H; cbn [fst] in H;
    [|discriminate H].
  injection H as <-. exists r. apply merge_planner_update.
Qed.

(** From a cursor inside the plan, a run needs one step for each query
    left and one for the writer: with that many steps allowed, the number
    allowed does not matter. *)
Lemma researcher_fuel (n : nat) :
  forall (s : AgentState) (st : St W) (k k' : nat),
  in_bounds s ->
  Z.of_nat n = (Z.of_nat (length (plan s)) - current_query_index s)%Z ->
  (n <= k)%nat -> (n <= k')%nat ->
  run_from svc (S k) researcher s st = run_from svc (S k') researcher s st.
Proof.
  induction n as [|m IH]; intros s st k k' Hs Hn Hk Hk'.
  { unfold in_bounds in Hs. lia. }
  rewrite !run_from_succ.
  destruct (step svc researcher s st) as [[s'|e] st'] eqn:Hstep;
    [|reflexivity].
  destruct (step_researcher_returns svc _ _ _ _ Hstep) as [sm ->].
  unfold edges, manager_logic. cbn [current_query_index plan].
  destruct k as [|j]; [lia|]. destruct k' as [|j']; [lia|].
  destruct (Z.ltb_spec (current_query_index s + 1)
                       (Z.of_nat (length (plan s)))) as [Hlt|Hge].
  - apply IH; [unfold in_bounds in *; cbn; lia | cbn; lia | lia | lia].
  - now rewrite !run_from_writer.
Qed.

(** In the counting of [run_from], five steps are enough for any run. *)
Lemma planner_fuel (fuel : nat) (s0 : AgentState) (st : St W) :
  (5 <= fuel)%nat ->
  run_from svc fuel planner s0 st = run_from svc 5 planner s0 st.
Proof.
  intros Hfuel. destruct fuel as [|k]; [lia|].
  rewrite !run_from_succ.
  destruct (step svc planner s0 st) as [[s1|e] st1] eqn:Hstep;
    [|reflexivity].
  destruct (step_planner_returns _ _ _ _ Hstep) as [reply ->].
  cbn [edges]. destruct k as [|j]; [lia|].
  pose proof (parse_plan_length reply) as Hlen.
  destruct (parse_plan reply) as [|q p] eqn:Hp.
  - pose proof (fun st' =>
                  research_node_index_error svc
                    (mkState (topic s0) [] 0 (summaries s0) (final_report s0))
                    st' IndexError (py_getitem_nil 0%Z)) as Hidx.
    rewrite !run_from_succ, !step_eq. cbn [node_fn].
    rewrite !Hidx. reflexivity.
  - apply (researcher_fuel (length (q :: p)));
      [unfold in_bounds; cbn; lia | cbn; lia | cbn in *; lia | cbn in *; lia].
Qed.

(** Each step enters one node. *)
Lemma run_from_entries (fuel : nat) :
  forall (n : Node) (s : AgentState) (st : St W),
  (length (entries (log (snd (run_from svc fuel n s st))))
   <= fuel + length (entries (log st)))%nat.
Proof.
  induction fuel as [|k IH]; intros n s st; [cbn; lia|].
  rewrite run_from_succ.
  pose proof (step_entries svc n s st) as Hent.
  destruct (step svc n s st) as [[s'|e] st'] eqn:Hstep; cbn [snd] in Hent.
  - destruct (edges n s') as [m|].
    + specialize (IH m s' st'). rewrite Hent in IH. cbn in IH. lia.
    + cbn [snd]. rewrite Hent. cbn. lia.
  - cbn [snd]. rewrite Hent. cbn. lia.
Qed.

(** From a cursor inside the plan, the rest of the run enters the
    researcher at most once for each query left, the writer at most once
    and the planner never. *)
Lemma researcher_entries (fuel : nat) :
  forall (s : AgentState) (st : St W),
  in_bounds s ->
  entered planner (log (snd (run_from svc fuel researcher s st)))
  = entered planner (log st) /\
  (Z.of_nat (length (entered researcher
                       (log (snd (run_from svc fuel researcher s st)))))
   <= Z.of_nat (length (entered researcher (log st)))
      + (Z.of_nat (length (plan s)) - current_query_index s))%Z /\
  (length (entered writer (log (snd (run_from svc fuel researcher s st))))
   <= S (length (entered writer (log st))))%nat.
Proof.
  induction fuel as [|k IH]; intros s st Hs.
  { unfold in_bounds in Hs. cbn [run_from raise snd]. repeat split; lia. }
  rewrite run_from_succ.
  pose proof (entered_step svc researcher planner s st) as Hp.
  pose proof (entered_step svc researcher researcher s st) as Hr.
  pose proof (entered_step svc researcher writer s st) as Hw.
  cbn [same_node] in Hp, Hr, Hw.
  destruct (step svc researcher s st) as [[s'|e] st1] eqn:Hstep;
    cbn [snd] in Hp, Hr, Hw.
  - destruct (step_researcher_returns svc _ _ _ _ Hstep) as [sm ->].
    unfold edges, manager_logic. cbn [current_query_index plan].
    destruct (Z.ltb_spec (current_query_index s + 1)
                         (Z.of_nat (length (plan s)))) as [Hlt|Hge].
    + destruct (IH (mkState (topic s) (plan s) (current_query_index s + 1)
                            (summaries s ++ [sm]) (final_report s)) st1)
        as [IHp [IHr IHw]]; [unfold in_bounds in *; cbn; lia|].
      cbn [plan current_query_index] in IHr.
      rewrite Hp in IHp. rewrite Hr in IHr. rewrite Hw in IHw.
      cbn [length] in IHr. repeat split; [exact IHp | lia | exact IHw].
    + unfold in_bounds in Hs. destruct k as [|j].
      * cbn [run_from raise snd]. rewrite Hp, Hr, Hw. cbn [length].
        repeat split; lia.
      * rewrite run_from_writer, !entered_step. cbn [same_node].
        rewrite Hp, Hr, Hw. cbn [length]. repeat split; lia.
  - unfold in_bounds in Hs. cbn [snd]. rewrite Hp, Hr, Hw. cbn [length].
    repeat split; lia.
Qed.

End RunBounds.

(** X4. Whatever the services do, a run enters the planner exactly once,
    the researcher at most 3 times and the writer at most once: at most 5
    nodes, far fewer than the default limit of 25 steps. *)
Theorem run_step_bound :
  forall (W : Type) (svc : Services W) (s0 : AgentState) (w : W),
  entered planner (log (snd (invoke svc s0 (mkSt w [])))) = [s0] /\
  (length (entered researcher (log (snd (invoke svc s0 (mkSt w [])))))
   <= 3)%nat /\
  (length (entered writer (log (snd (invoke svc s0 (mkSt w []))))) <= 1)%nat /\
  (length (entries (log (snd (invoke svc s0 (mkSt w []))))) <= 5)%nat.
Proof.
  intros W svc s0 w.
  assert (Htotal : (length (entries (log (snd (invoke svc s0 (mkSt w [])))))
                    <= 5)%nat).
  { unfold invoke, entry_point.
    rewrite (planner_fuel svc recursion_limit)
      by (unfold recursion_limit; lia).
    pose proof (run_from_entries svc 5 planner s0 (mkSt w [])) as H.
    cbn [log entries length] in H. lia. }
  cut (entered planner (log (snd (invoke svc s0 (mkSt w [])))) = [s0] /\
       (length (entered researcher (log (snd (invoke svc s0 (mkSt w [])))))
        <= 3)%nat /\
       (length (entered writer (log (snd (invoke svc s0 (mkSt w [])))))
        <= 1)%nat); [tauto|].
  clear Htotal. unfold invoke, entry_point.
  change recursion_limit with (S 24). rewrite run_from_succ.
  pose proof (entered_step svc planner planner s0 (mkSt w [])) as Hp.
  pose proof (entered_step svc planner researcher s0 (mkSt w [])) as Hr.
  pose proof (entered_step svc planner writer s0 (mkSt w [])) as Hw.
  cbn [same_node log] in Hp, Hr, Hw. unfold entered at 2 in Hp.
  unfold entered at 2 in Hr. unfold entered at 2 in Hw.
  cbn [entries filter map] in Hp, Hr, Hw.
  destruct (step svc planner s0 (mkSt w [])) as [[s1|e] st1] eqn:Hstep;
    cbn [snd] in Hp, Hr, Hw.
  - destruct (step_planner_returns svc _ _ _ _ Hstep) as [reply ->].
    cbn [edges].
    pose proof (parse_plan_length reply) as Hlen.
    destruct (parse_plan reply) as [|q p] eqn:Hplan.
    + change 24%nat with (S 23). rewrite run_from_succ, step_eq.
      cbn [node_fn].
      pose proof (entered_step svc researcher planner
                    (mkState (topic s0) [] 0 (summaries s0) (final_report s0))
                    st1) as Hp'.
      pose proof (entered_step svc researcher researcher
                    (mkState (topic s0) [] 0 (summaries s0) (final_report s0))
                    st1) as Hr'.
      pose proof (entered_step svc researcher writer
                    (mkState (topic s0) [] 0 (summaries s0) (final_report s0))
                    st1) as Hw'.
      rewrite step_eq in Hp', Hr', Hw'. cbn [node_fn same_node] in Hp', Hr', Hw'.
      rewrite (research_node_index_error svc
                 (mkState (topic s0) [] 0 (summaries s0) (final_report s0))
                 _ IndexError (py_getitem_nil 0%Z)) in *.
      cbn [snd] in *. rewrite Hp', Hr', Hw', Hp, Hr, Hw. cbn [length].
      repeat split; lia.
    + destruct (researcher_entries svc 24
                  (mkState (topic s0) (q :: p) 0 (summaries s0)
                           (final_report s0)) st1)
        as [Hp' [Hr' Hw']]; [unfold in_bounds; cbn; lia|].
      cbn [plan current_query_index] in Hr'.
      rewrite Hp in Hp'. rewrite Hr in Hr'. rewrite Hw in Hw'.
      cbn [length] in *. repeat split; [exact Hp' | lia | lia].
  - cbn [snd]. rewrite Hp, Hr, Hw. cbn [length]. repeat split; lia.
Qed.

(** X6. When the model raises on the planning request, the run raises the
    same exception at once: the planner is the only node entered, the
    model is called once, and nothing is searched or fetched. *)
Theorem planner_failure_aborts :
  forall (W : Type) (svc : Services W) (s0 : AgentState) (w : W)
         (e : exn) (w1 : W),
  llm_invoke svc (planner_messages (topic s0)) w = (Raises e, w1) ->
  invoke svc s0 (mkSt w [])
  = (Raises e,
     mkSt w1 [EvLLM (planner_messages (topic s0)); EvEnter planner s0]).
Proof.
  intros W svc s0 w e w1 Hllm. unfold invoke, entry_point.
  change recursion_limit with (S 24).
  rewrite run_from_succ, step_eq. cbn [node_fn world log].
  now rewrite (planner_node_raises svc s0
                 (mkSt w [EvEnter planner s0]) e w1 Hllm).
Qed.

(** The theorem for a model that fails on the planning request. *)
Lemma planner_failure_aborts_witness :
  invoke planner_down (initial_state "solar") st0
  = (Raises (ServiceError "model"),
     mkSt 1%nat [EvLLM (planner_messages "solar");
                 EvEnter planner (initial_state "solar")]).
Proof.
  exact (planner_failure_aborts nat planner_down (initial_state "solar")
           0%nat (ServiceError "model") 1%nat eq_refl).
Defined.

(** X7. With a model that answers every request and a plan that is not
    empty, a run returns. Its final state holds the topic it started
    with, the plan, the cursor at the length of the plan, one new summary
    for each query, in the order of the plan (the fixed sentence for the
    query or an answer of the model to a summarization request for that
    query), and as report the model's answer to the writer's request. The
    planner and the writer are entered once, the researcher once for each
    query. *)
Theorem successful_run :
  forall (W : Type) (svc : Services W) (s0 : AgentState) (w : W)
         (reply : string) (w1 : W),
  llm_responsive svc ->
  llm_invoke svc (planner_messages (topic s0)) w = (Returns reply, w1) ->
  parse_plan reply <> [] ->
  exists (added : list string) (report : string) (st' : St W),
    invoke svc s0 (mkSt w [])
    = (Returns (mkState (topic s0) (parse_plan reply)
                        (Z.of_nat (length (parse_plan reply)))
                        (summaries s0 ++ added) report), st') /\
    Forall2 (summary_of svc) (parse_plan reply) added /\
    (exists w2 w3,
       llm_invoke svc
         [HumanMessage
            (writer_prompt (topic s0)
               (join summaries_separator (summaries s0 ++ added)))] w2
       = (Returns report, w3)) /\
    entered planner (log st') = [s0] /\
    length (entered researcher (log st')) = length (parse_plan reply) /\
    length (entered writer (log st')) = 1%nat.
Proof.
  intros W svc s0 w reply w1 Hresp Hllm Hne.
  destruct (invoke_reaches_writer svc (summary_of svc))
    with (s0 := s0) (w := w) (reply := reply) (w1 := w1)
    as [added [visited [st1 [Hall [Hlen [Hrun [Hp [Hr Hw]]]]]]]];
    try assumption.
  { intros s st query Hq.
    destruct (research_node_eq svc s st query Hq) as [st2 [_ [_ ->]]].
    destruct (fst (documents_for svc query (world st))) as [|d ds].
    - cbn [map]. rewrite summarize_nothing. do 2 eexists.
      split; [reflexivity | now left].
    - rewrite summarize_documents, invoke_llm_eq.
      destruct (Hresp [HumanMessage
                         (summary_prompt query
                            (join (nl ++ nl) (map document_entry (d :: ds))))]
                      (world st2)) as [r [w' Hr]].
      rewrite Hr. cbn [fst snd]. do 2 eexists.
      split; [reflexivity|]. right. eauto. }
  set (s_w := mkState (topic s0) (parse_plan reply)
                      (Z.of_nat (length (parse_plan reply)))
                      (summaries s0 ++ added) (final_report s0)) in *.
  destruct (Hresp [HumanMessage
                     (writer_prompt (topic s_w)
                        (join summaries_separator (summaries s_w)))]
                  (world st1)) as [report [w3 Hreport]].
  exists added, report, (snd (invoke svc s0 (mkSt w []))).
  rewrite Hp, Hr, Hw, Hlen. repeat split; try assumption.
  - rewrite Hrun, step_eq. cbn [node_fn]. rewrite writer_node_eq.
    cbn [world]. rewrite Hreport. reflexivity.
  - exists (world st1), w3. exact Hreport.
Qed.

(** The theorem for a three-line plan, with a hit and text for each
    query. *)
Lemma successful_run_witness :
  exists (added : list string) (report : string) (st' : St nat),
    invoke all_fine (initial_state "solar") st0
    = (Returns (mkState "solar" ["alpha"; "beta"; "gamma"] 3
                        ([] ++ added) report), st') /\
    Forall2 (summary_of all_fine) ["alpha"; "beta"; "gamma"] added /\
    (exists w2 w3,
       llm_invoke all_fine
         [HumanMessage
            (writer_prompt "solar" (join summaries_separator ([] ++ added)))]
         w2
       = (Returns report, w3)) /\
    entered planner (log st') = [initial_state "solar"] /\
    length (entered researcher (log st')) = 3%nat /\
    length (entered writer (log st')) = 1%nat.
Proof.
  apply (successful_run nat all_fine (initial_state "solar") 0%nat
           ("alpha" ++ nl ++ "beta" ++ nl ++ "gamma") 1%nat).
  - intros msgs w. cbn. destruct (is_planning msgs); eauto.
  - reflexivity.
  - discriminate.
Defined.

(** ** What a run costs *)

Section RunBudget.

Context {W : Type}.
Variable svc : Services W.

(** A node calls the model at most once. *)
Lemma node_fn_llm_calls (n : Node) (s : AgentState) (st : St W) :
  (length (llm_calls (log (snd (node_fn svc n s st))))
   <= S (length (llm_calls (log st))))%nat.
Proof.
  destruct n; cbn [node_fn].
  - unfold planner_node, bind. rewrite invoke_llm_eq.
    destruct (llm_invoke svc _ (world st)) as [[r|e] w'];
      cbn [fst snd log llm_calls length ret]; lia.
  - destruct (py_getitem (plan s) (current_query_index s)) as [q|e] eqn:Hq.
    + destruct (research_node_eq svc s st q Hq) as [st2 [_ [[Hl _] ->]]].
      destruct (fst (documents_for svc q (world st))) as [|d ds].
      * cbn [map]. rewrite summarize_nothing. cbn [snd]. rewrite Hl. lia.
      * rewrite summarize_documents, invoke_llm_eq.
        destruct (llm_invoke svc _ (world st2)) as [[r|e] w'];
          cbn [fst snd log llm_calls length]; rewrite Hl; lia.
    + rewrite (research_node_index_error svc s st e Hq). cbn [snd]. lia.
  - rewrite writer_node_eq.
    destruct (llm_invoke svc _ (world st)) as [[r|e] w'];
      cbn [fst snd log llm_calls length]; lia.
Qed.

Lemma step_llm_calls (n : Node) (s : AgentState) (st : St W) :
  (length (llm_calls (log (snd (step svc n s st))))
   <= S (length (llm_calls (log st))))%nat.
Proof.
  rewrite step_eq.
  pose proof (node_fn_llm_calls n s
                (mkSt (world st) (EvEnter n s :: log st))) as H.
  cbn [log llm_calls] in H.
  destruct (node_fn svc n s _) as [[u|e] st']; exact H.
Qed.

Lemma run_from_llm_calls (fuel : nat) :
  forall (n : Node) (s : AgentState) (st : St W),
  (length (llm_calls (log (snd (run_from svc fuel n s st))))
   <= fuel + length (llm_calls (log st)))%nat.
Proof.
  induction fuel as [|k IH]; intros n s st; [cbn; lia|].
  rewrite run_from_succ.
  pose proof (step_llm_calls n s st) as Hstep.
  destruct (step svc n s st) as [[s'|e] st'];  cbn [snd] in Hstep.
  - destruct (edges n s') as [m|]; [|cbn [snd]; lia].
    specialize (IH m s' st'). lia.
  - cbn [snd]. lia.
Qed.

(** Only the researcher searches, at most once, for at most 3 results. *)
Lemma step_searches (n : Node) (s : AgentState) (st : St W) :
  exists new : list (string * Z),
    searches (log (snd (step svc n s st))) = (new ++ searches (log st))%list /\
    (length new <= (if same_node n researcher then 1 else 0))%nat /\
    Forall (fun x => snd x = 3%Z) new.
Proof.
  rewrite step_eq. set (st1 := mkSt (world st) (EvEnter n s :: log st)).
  assert (Hnode : exists new : list (string * Z),
            searches (log (snd (node_fn svc n s st1)))
            = (new ++ searches (log st))%list /\
            (length new <= (if same_node n researcher then 1 else 0))%nat /\
            Forall (fun x => snd x = 3%Z) new).
  { destruct n; cbn [node_fn same_node].
    - exists []. unfold planner_node, bind. rewrite invoke_llm_eq.
      destruct (llm_invoke svc _ (world st1)) as [[r|e] w'];
        repeat split; auto.
    - destruct (py_getitem (plan s) (current_query_index s)) as [q|e] eqn:Hq.
      + destruct (research_node_trace svc s st1 q Hq) as [-> _].
        exists [(q, 3%Z)]. repeat split; auto.
      + rewrite (research_node_index_error svc s st1 e Hq).
        exists []. repeat split; auto.
    - exists []. rewrite writer_node_eq.
      destruct (llm_invoke svc _ (world st1)) as [[r|e] w'];
        repeat split; auto. }
  destruct (node_fn svc n s st1) as [[u|e] st']; exact Hnode.
Qed.

(** From a cursor inside the plan, the rest of the run searches at most
    once for each query left. *)
Lemma researcher_searches (fuel : nat) :
  forall (s : AgentState) (st : St W),
  in_bounds s ->
  exists new : list (string * Z),
    searches (log (snd (run_from svc fuel researcher s st)))
    = (new ++ searches (log st))%list /\
    (Z.of_nat (length new)
     <= Z.of_nat (length (plan s)) - current_query_index s)%Z /\
    Forall (fun x => snd x = 3%Z) new.
Proof.
  induction fuel as [|k IH]; intros s st Hs.
  { exists []. unfold in_bounds in Hs. cbn. repeat split; auto; lia. }
  rewrite run_from_succ.
  destruct (step_searches researcher s st) as [new1 [Hnew1 [Hlen1 Hall1]]].
  cbn [same_node] in Hlen1.
  destruct (step svc researcher s st) as [[s'|e] st1] eqn:Hstep;
    cbn [snd] in Hnew1.
  - destruct (step_researcher_returns svc _ _ _ _ Hstep) as [sm ->].
    unfold edges, manager_logic. cbn [current_query_index plan].
    destruct (Z.ltb_spec (current_query_index s + 1)
                         (Z.of_nat (length (plan s)))) as [Hlt|Hge].
    + destruct (IH (mkState (topic s) (plan s) (current_query_index s + 1)
                            (summaries s ++ [sm]) (final_report s)) st1)
        as [new2 [Hnew2 [Hlen2 Hall2]]];
        [unfold in_bounds in *; cbn; lia|].
      cbn [plan current_query_index] in Hlen2.
      exists (new2 ++ new1)%list. rewrite Hnew2, Hnew1, app_assoc.
      repeat split; [|now apply Forall_app].
      rewrite length_app. lia.
    + exists new1. unfold in_bounds in Hs.
      destruct k as [|j].
      * cbn [run_from raise snd]. repeat split; auto; lia.
      * rewrite run_from_writer.
        destruct (step_searches writer
                    (mkState (topic s) (plan s) (current_query_index s + 1)
                             (summaries s ++ [sm]) (final_report s)) st1)
          as [new2 [Hnew2 [Hlen2 _]]].
        cbn [same_node] in Hlen2. destruct new2; [|cbn in Hlen2; lia].
        rewrite Hnew2, Hnew1. repeat split; auto; lia.
  - exists new1. unfold in_bounds in Hs. cbn [snd].
    repeat split; auto; lia.
Qed.

End RunBudget.

(** X8. Whatever the services do, a run calls the model at most 5 times
    and the search client at most 3 times, each time for at most 3
    results. *)
Theorem run_budget :
  forall (W : Type) (svc : Services W) (s0 : AgentState) (w : W),
  (length (llm_calls (log (snd (invoke svc s0 (mkSt w []))))) <= 5)%nat /\
  (length (searches (log (snd (invoke svc s0 (mkSt w []))))) <= 3)%nat /\
  Forall (fun x => snd x = 3%Z)
         (searches (log (snd (invoke svc s0 (mkSt w []))))).
Proof.
  intros W svc s0 w. split.
  - unfold invoke, entry_point.
    rewrite (planner_fuel svc recursion_limit)
      by (unfold recursion_limit; lia).
    pose proof (run_from_llm_calls svc 5 planner s0 (mkSt w [])) as H.
    cbn [log llm_calls length] in H. lia.
  - unfold invoke, entry_point. change recursion_limit with (S 24).
    rewrite run_from_succ.
    destruct (step_searches svc planner s0 (mkSt w []))
      as [new0 [Hnew0 [Hlen0 _]]].
    cbn [same_node] in Hlen0. destruct new0; [|cbn in Hlen0; lia].
    cbn [log searches app] in Hnew0.
    destruct (step svc planner s0 (mkSt w [])) as [[s1|e] st1] eqn:Hstep;
      cbn [snd] in Hnew0; [|cbn [snd]; rewrite Hnew0; cbn; split; auto; lia].
    destruct (step_planner_returns svc _ _ _ _ Hstep) as [reply ->].
    cbn [edges].
    pose proof (parse_plan_length reply) as Hlen.
    destruct (parse_plan reply) as [|q p] eqn:Hp.
    + change 24%nat with (S 23). rewrite run_from_succ.
      destruct (step_searches svc researcher
                  (mkState (topic s0) [] 0 (summaries s0) (final_report s0))
                  st1) as [new1 [Hnew1 [Hlen1 Hall1]]].
      rewrite step_eq in *. cbn [node_fn] in *.
      rewrite (research_node_index_error svc
                 (mkState (topic s0) [] 0 (summaries s0) (final_report s0))
                 _ IndexError (py_getitem_nil 0%Z)) in *.
      cbn [snd] in *. rewrite Hnew1, Hnew0, app_nil_r.
      cbn [same_node] in Hlen1. split; [lia | exact Hall1].
    + destruct (researcher_searches svc 24
                  (mkState (topic s0) (q :: p) 0 (summaries s0)
                           (final_report s0)) st1)
        as [new [Hnew [Hlenn Hall]]]; [unfold in_bounds; cbn; lia|].
      cbn [plan current_query_index] in Hlenn.
      rewrite Hnew, Hnew0, app_nil_r. split; [lia | exact Hall].
Qed.

(** ** The chat page *)

Section PageFacts.

Context {W : Type}.
Variable svc : Services W.

(** The loop over the stream does what a run does, and the text it keeps
    for the report is the report of the state. *)
Lemma stream_loop_run (fuel : nat) :
  forall (n : Node) (s : AgentState) (p : App.Progress) (st : St W),
  App.final_report_text p = final_report s ->
  exists p' : App.Progress,
    match run_from svc fuel n s st with
    | (Returns s', st') =>
        App.stream_loop svc fuel n s p st = ((p', None), st') /\
        App.final_report_text p' = final_report s'
    | (Raises e, st') =>
        App.stream_loop svc fuel n s p st = ((p', Some e), st')
    end.
Proof.
  induction fuel as [|k IH]; intros n s p st Htext.
  { exists p. reflexivity. }
  rewrite run_from_succ, step_eq. cbn [App.stream_loop].
  destruct (node_fn svc n s _) as [[u|e] st1] eqn:Hnode;
    [|exists p; reflexivity].
  assert (Hev : exists p1,
            App.handle_event n u p = Returns p1 /\
            App.final_report_text p1 = final_report (merge s u)).
  { destruct n; cbn [node_fn] in Hnode.
    - apply planner_node_update in Hnode as [pl ->].
      eexists. split; [reflexivity | exact Htext].
    - apply research_node_update in Hnode as [sm ->].
      eexists. split; [reflexivity | exact Htext].
    - apply writer_node_update in Hnode as [r ->].
      eexists. split; reflexivity. }
  destruct Hev as [p1 [-> Hp1]].
  destruct (edges n (merge s u)) as [m|].
  - apply IH. exact Hp1.
  - exists p1. split; [reflexivity | exact Hp1].
Qed.

End PageFacts.

(** X9. A submission of the chat input, with a prompt and a key, runs the
    graph as [invoke] does. When the run returns, the prompt and the
    report of the final state are added to the chat history, in this
    order, and that report is the one kept for the download. When the run
    raises, only the prompt is added, the report kept from an earlier
    submission stays, and the error is the last thing shown. *)
Theorem chat_turn_outcome :
  forall (W : Type) (svc : Services W) (google_api_key : option string)
         (prompt : string) (session : App.Session) (st : St W),
  truthy prompt = true ->
  truthy_opt google_api_key = true ->
  exists shown : list App.Status,
    match invoke svc (initial_state prompt) st with
    | (Returns s', st') =>
        App.chat_turn svc google_api_key prompt session st
        = ((App.mkSession
              (App.messages session
               ++ [App.mkChat "user" prompt;
                   App.mkChat "assistant" (final_report s')])
              (Some (final_report s')), shown), st')
    | (Raises e, st') =>
        App.chat_turn svc google_api_key prompt session st
        = ((App.mkSession (App.messages session ++ [App.mkChat "user" prompt])
                          (App.final_report session),
            (shown ++ [App.ErrorOccurred e])%list), st')
    end.
Proof.
  intros W svc key prompt session st Hprompt Hkey.
  unfold App.chat_turn. rewrite Hprompt, Hkey.
  destruct (stream_loop_run svc recursion_limit entry_point
              (initial_state prompt) (App.mkProgress EmptyString []) st
              eq_refl) as [p' Hloop].
  exists (App.written p'). unfold invoke.
  destruct (run_from svc recursion_limit entry_point (initial_state prompt) st)
    as [[s'|e] st'].
  - destruct Hloop as [-> <-]. cbn [App.messages App.final_report].
    now rewrite <- app_assoc.
  - rewrite Hloop. reflexivity.
Qed.

(** The theorem for a session with an earlier report and a model that
    fails on a summarization request. *)
Lemma chat_turn_outcome_witness :
  exists shown : list App.Status,
    App.chat_turn model_down (Some "key") "solar" earlier_session st0
    = ((App.mkSession
          [App.mkChat "user" "wind"; App.mkChat "assistant" "R0";
           App.mkChat "user" "solar"]
          (Some "R0"),
        (shown ++ [App.ErrorOccurred (ServiceError "model")])%list),
       snd (invoke model_down (initial_state "solar") st0)).
Proof.
  exact (chat_turn_outcome nat model_down (Some "key") "solar"
           earlier_session st0 eq_refl eq_refl).
Defined.

(** X10. For the update that the researcher returns in a state, the page
    writes one line: it names the query just finished by its number
    counted from 1, the cursor of that state plus 1, with the length of
    the summary that the update appends. Reading the first summary of the
    update never fails. *)
Theorem research_step_shown :
  forall (W : Type) (svc : Services W) (s : AgentState) (st st' : St W)
         (u : Update) (p : App.Progress),
  research_node svc s st = (Returns u, st') ->
  exists summary : string,
    summaries (merge s u) = (summaries s ++ [summary])%list /\
    App.handle_event researcher u p
    = Returns (App.mkProgress (App.final_report_text p)
                 (App.written p
                  ++ [App.ResearchStep (current_query_index s + 1)
                                       (String.length summary)])).
Proof.
  intros W svc s st st' u p H.
  apply research_node_update in H as [sm ->].
  exists sm. split; [reflexivity|].
  unfold App.handle_event, research_update, overwrite.
  cbn [u_current_query_index u_summaries].
  replace (current_query_index s + 1 - 1 + 1)%Z
    with (current_query_index s + 1)%Z by lia.
  reflexivity.
Qed.

(** The theorem for one query whose search fails. *)
Lemma research_step_shown_witness :
  exists summary : string,
    summaries (merge one_query (research_update 0 (no_content_summary "alpha")))
    = ([] ++ [summary])%list /\
    App.handle_event researcher
      (research_update 0 (no_content_summary "alpha"))
      (App.mkProgress EmptyString [])
    = Returns (App.mkProgress EmptyString
                 ([] ++ [App.ResearchStep (0 + 1) (String.length summary)])).
Proof.
  exact (research_step_shown nat search_down one_query st0
           (snd (research_node search_down one_query st0))
           (research_update 0 (no_content_summary "alpha"))
           (App.mkProgress EmptyString []) eq_refl).
Defined.

(** ** Researcher, the cursor outside the plan *)

(** X11. Called with a cursor that Python's indexing does not accept for
    the plan (at or after its length, or further before 0 than its
    length), the researcher raises [IndexError] before it asks anything
    of the services: the world and the log are unchanged. *)
Theorem researcher_out_of_range :
  forall (W : Type) (svc : Services W) (s : AgentState) (st : St W),
  (current_query_index s < - Z.of_nat (length (plan s)) \/
   Z.of_nat (length (plan s)) <= current_query_index s)%Z ->
  research_node svc s st = (Raises IndexError, st).
Proof.
  intros W svc s st Hout. apply research_node_index_error.
  unfold py_getitem.
  destruct (Z.ltb_spec (current_query_index s) 0) as [Hneg|Hpos].
  - destruct (Z.leb_spec 0 (current_query_index s
                            + Z.of_nat (length (plan s)))) as [H0|H0];
      [|reflexivity].
    destruct (Z.ltb_spec (current_query_index s + Z.of_nat (length (plan s)))
                         (Z.of_nat (length (plan s)))); [lia | reflexivity].
  - destruct (Z.leb_spec 0 (current_query_index s)); [|reflexivity].
    destruct (Z.ltb_spec (current_query_index s)
                         (Z.of_nat (length (plan s)))); [lia | reflexivity].
Qed.

(** The theorem for a cursor at the length of the plan. *)
Lemma researcher_out_of_range_witness :
  research_node all_fine used_state st0 = (Raises IndexError, st0).
Proof.
  apply (researcher_out_of_range nat all_fine used_state st0).
  right. cbn. lia.
Defined.
